(** * lightsim2grid: pandapower-to-GridModel initialisation and the pyklu
      Newton-Raphson driver

    Two Python sources are embedded here:

    - [lightsim2grid/initGridModel.py], function [init], which reads the
      tables of a pandapower network and drives a C++ [GridModel] object;
    - [pyklu/compute_powerflow.py], function [newtonpf] and method
      [KLU4Pandapower.runpp], which drive a C++ [KLUSolver] object.

    The Python code is glue: what it computes itself is which calls it makes
    on the C++ objects, in which order and with which arguments, and which
    exceptions it raises.  A C++ object is therefore represented by the
    chronological list of the method calls made on it, and Python control
    flow by a small state-and-exception monad.  Floating-point columns are
    IEEE binary64 values ([PrimFloat.float]). *)

From Stdlib Require Import List ZArith String Bool Arith Lia PrimFloat.
From Stdlib Require Import Permutation Sorted.
Import ListNotations.

(* ================================================================= *)
(** * Python control flow: values, exceptions, mutable state *)

(** The exceptions the embedded code can raise, itself or through pandas
    and pandapower.  [LoadflowNotConverged] is pandapower's; its message
    (algorithm and iteration budget) is left out. *)
Inductive exn : Type :=
| KeyError
| IndexError
| TypeError
| NotImplementedError (msg : string)
| LoadflowNotConverged.

(** Outcome of evaluating a Python expression or statement. *)
Inductive result (A : Type) : Type :=
| Returns (a : A)
| Raises (e : exn).

Arguments Returns {A} a.
Arguments Raises {A} e.

(** A computation over a mutable store [St].  The store survives a raise:
    what was mutated before the exception stays mutated. *)
Definition M (St A : Type) : Type := St -> result A * St.

Definition ret {St A : Type} (a : A) : M St A :=
  fun s => (Returns a, s).

Definition bind {St A B : Type} (m : M St A) (k : A -> M St B) : M St B :=
  fun s =>
    match m s with
    | (Returns a, s') => k a s'
    | (Raises e, s') => (Raises e, s')
    end.

Definition raise {St A : Type} (e : exn) : M St A :=
  fun s => (Raises e, s).

Definition lift {St A : Type} (r : result A) : M St A :=
  fun s => (r, s).

Definition get {St : Type} : M St St :=
  fun s => (Returns s, s).

Definition put {St : Type} (s : St) : M St unit :=
  fun _ => (Returns tt, s).

Definition modify {St : Type} (f : St -> St) : M St unit :=
  fun s => (Returns tt, f s).

Declare Scope py_scope.
Delimit Scope py_scope with py.

Notation "x <- m ;; k" := (bind m (fun x => k))
  (at level 100, m at next level, right associativity) : py_scope.
Notation "m ;; k" := (bind m (fun _ => k))
  (at level 100, right associativity) : py_scope.

Open Scope py_scope.

(** [for i, x in enumerate(xs): body(i, x)] *)
Fixpoint for_enumerate_from {St A : Type} (start : nat) (xs : list A)
    (body : nat -> A -> M St unit) : M St unit :=
  match xs with
  | [] => ret tt
  | x :: xs' => body start x ;; for_enumerate_from (S start) xs' body
  end.

Definition for_enumerate {St A : Type} (xs : list A)
    (body : nat -> A -> M St unit) : M St unit :=
  for_enumerate_from 0 xs body.

(* ================================================================= *)
(** * The numpy operations used by [init] *)

Module np.

(** [np.isfinite(a)], elementwise. *)
Definition isfinite (a : list float) : list bool := map is_finite a.

(** [~m] on a boolean array. *)
Definition invert (m : list bool) : list bool := map negb m.

(** [np.any(m)] *)
Definition any (m : list bool) : bool := existsb (fun b => b) m.

(** [a == v] for an integer array and a scalar. *)
Definition eq (a : list Z) (v : Z) : list bool := map (fun x => Z.eqb x v) a.

(** [np.where(m)[0]]: the positions holding [True], increasing. *)
Fixpoint where_from (i : nat) (m : list bool) : list nat :=
  match m with
  | [] => []
  | b :: m' => if b then i :: where_from (S i) m' else where_from (S i) m'
  end.

Definition where_ (m : list bool) : list nat := where_from 0 m.

(** [a[m] = v]: in-place assignment through a boolean mask.  In [init] the
    mask is always computed from a column of the same table, so the lengths
    agree. *)
Fixpoint setitem_mask {A : Type} (a : list A) (m : list bool) (v : A) : list A :=
  match a, m with
  | x :: a', b :: m' => (if b then v else x) :: setitem_mask a' m' v
  | _, _ => a
  end.

(** [np.concatenate((a, b))] *)
Definition concatenate {A : Type} (a b : list A) : list A := a ++ b.

(** [np.sum(s)] for a pandas Series [s] of floats.  numpy hands the call
    to [Series.sum], which with its default [skipna=True] fills the NaN
    entries with zero and reduces the filled column with numpy's
    [add.reduce].  The reduction starts from [0.0] and adds the pairwise
    sum of the column (numpy's [DOUBLE_pairwise_sum]):

    - fewer than 8 entries are added one after the other, from [0.0];
    - up to 128 entries are added into 8 partial sums, entry [i] into
      partial sum [i mod 8], over the whole blocks of 8; the partial sums
      are combined as [((r0+r1)+(r2+r3))+((r4+r5)+(r6+r7))] and the
      entries after the last whole block added one after the other;
    - a longer column is cut at half its length, rounded down to a
      multiple of 8, and the sums of the two parts are added.

    Floating-point addition is not associative, so the order is part of
    the value. *)

(** NaN entries filled with zero. *)
Definition fillna_zero (s : list float) : list float :=
  map (fun x => if is_nan x then zero else x) s.

(** [for x in a: res += x] *)
Definition accumulate (res : float) (a : list float) : float :=
  fold_left PrimFloat.add a res.

(** [blocks] rounds of [r[j] += a[i + j]] for [j] from 0 to 7; returns the
    partial sums and the entries not consumed. *)
Fixpoint add_blocks (blocks : nat) (r a : list float) : list float * list float :=
  match blocks with
  | O => (r, a)
  | S blocks' =>
      add_blocks blocks'
        (map (fun xy => (fst xy + snd xy)%float) (combine r (firstn 8 a)))
        (skipn 8 a)
  end.

(** The branch of the pairwise sum for 8 to 128 entries. *)
Definition unrolled_sum (a : list float) : float :=
  let n := List.length a in
  let '(r, rest) := add_blocks (n / 8 - 1) (firstn 8 a) (skipn 8 a) in
  let r_ (j : nat) := nth j r zero in
  let res :=
    (((r_ 0%nat + r_ 1%nat) + (r_ 2%nat + r_ 3%nat))
     + ((r_ 4%nat + r_ 5%nat) + (r_ 6%nat + r_ 7%nat)))%float in
  accumulate res rest.

(** The pairwise sum.  [depth] bounds the number of nested halvings; a
    column of [n] entries needs fewer than [n] (lemma [pairwise_sum_depth]
    below), so the last branch is not reached from [sum]. *)
Fixpoint pairwise_sum (depth : nat) (a : list float) : float :=
  let n := List.length a in
  if Nat.ltb n 8 then accumulate zero a
  else if Nat.leb n 128 then unrolled_sum a
  else
    match depth with
    | O => unrolled_sum a
    | S depth' =>
        let n2 := n / 2 - (n / 2) mod 8 in
        (pairwise_sum depth' (firstn n2 a) + pairwise_sum depth' (skipn n2 a))%float
    end.

Definition sum (s : list float) : float :=
  (zero + pairwise_sum (List.length s) (fillna_zero s))%float.

(** [np.argsort(keys)]: the positions ordered by key.  Positions of equal
    keys are kept in their original order, as numpy's default sort leaves
    them on the short runs it sorts by insertion; pandapower keeps the
    labels of a bus table distinct. *)
Fixpoint argsort_insert (k : Z) (p : nat) (acc : list (Z * nat)) : list (Z * nat) :=
  match acc with
  | [] => [(k, p)]
  | (k', p') :: acc' =>
      if Z.leb k k' then (k, p) :: acc
      else (k', p') :: argsort_insert k p acc'
  end.

Fixpoint argsort_from (i : nat) (keys : list Z) : list (Z * nat) :=
  match keys with
  | [] => []
  | k :: keys' => argsort_insert k i (argsort_from (S i) keys')
  end.

Definition argsort (keys : list Z) : list nat :=
  map snd (argsort_from 0 keys).

(** [a[0]] *)
Definition item0 {A : Type} (a : list A) : result A :=
  match a with
  | [] => Raises IndexError
  | x :: _ => Returns x
  end.

End np.

(* ================================================================= *)
(** * The pandas operations used by [init] *)

Module pd.

Section Frame.
Context {Row : Type} (index : Row -> Z).

(** The rows carrying one label. *)
Definition rows_at (rows : list Row) (label : Z) : list Row :=
  filter (fun r => Z.eqb (index r) label) rows.

(** [frame.loc[labels]] with a list-like of labels: the rows of each label
    in turn; a label absent from the index raises [KeyError]. *)
Fixpoint loc (rows : list Row) (labels : list Z) : result (list Row) :=
  match labels with
  | [] => Returns []
  | l :: labels' =>
      match rows_at rows l with
      | [] => Raises KeyError
      | found =>
          match loc rows labels' with
          | Returns rest => Returns (found ++ rest)
          | Raises e => Raises e
          end
      end
  end.
End Frame.

(** [frame.iloc[positions]]: rows by position; a position past the end
    raises [IndexError]. *)
Fixpoint iloc {Row : Type} (rows : list Row) (positions : list nat)
    : result (list Row) :=
  match positions with
  | [] => Returns []
  | p :: positions' =>
      match nth_error rows p with
      | None => Raises IndexError
      | Some r =>
          match iloc rows positions' with
          | Returns rest => Returns (r :: rest)
          | Raises e => Raises e
          end
      end
  end.

End pd.

(* ================================================================= *)
(** * [lightsim2grid/initGridModel.py] *)

Module InitGridModel.

(** ** The pandapower network, table by table

    A DataFrame is a list of rows: all its columns have the same length.
    Only the columns [init] reads are kept.  The index label of a row is
    kept where [init] looks rows up by label (buses, generators). *)

Record BusRow : Type := {
  bus_index : Z;
  bus_vn_kv : float
}.

Record LineRow : Type := {
  r_ohm_per_km : float;
  x_ohm_per_km : float;
  c_nf_per_km : float;
  g_us_per_km : float;
  length_km : float;
  from_bus : Z;
  to_bus : Z;
  line_in_service : bool
}.

Record TrafoRow : Type := {
  vn_hv_kv : float;
  vn_lv_kv : float;
  vk_percent : float;
  vkr_percent : float;
  trafo_sn_mva : float;
  pfe_kw : float;
  i0_percent : float;
  tap_step_percent : float;
  tap_pos : float;
  tap_side : option string;
  hv_bus : Z;
  lv_bus : Z;
  trafo_in_service : bool
}.

Record ShuntRow : Type := {
  shunt_p_mw : float;
  shunt_q_mvar : float;
  shunt_bus : Z;
  shunt_in_service : bool
}.

Record LoadRow : Type := {
  load_p_mw : float;
  load_q_mvar : float;
  load_bus : Z;
  load_in_service : bool
}.

Record GenRow : Type := {
  gen_index : Z;
  gen_p_mw : float;
  gen_vm_pu : float;
  min_q_mvar : float;
  max_q_mvar : float;
  gen_bus : Z;
  gen_in_service : bool;
  slack : bool
}.

Record ExtGridRow : Type := {
  ext_grid_bus : Z;
  ext_grid_vm_pu : float
}.

Record PPNet : Type := {
  sn_mva : float;
  f_hz : float;
  bus : list BusRow;
  line : list LineRow;
  trafo : list TrafoRow;
  shunt : list ShuntRow;
  load : list LoadRow;
  gen : list GenRow;
  ext_grid : list ExtGridRow
}.

(** ** The C++ converter

    [PandaPowerConverter] is a C++ class.  What its per-unit conversions
    return is not computed here: an output array is identified by the
    conversion that produced it, that is by the converter's settings and
    the argument arrays of the call. *)

Record PandaPowerConverter : Type := {
  conv_sn_mva : option float;
  conv_f_hz : option float
}.

Definition PandaPowerConverter_new : PandaPowerConverter :=
  {| conv_sn_mva := None; conv_f_hz := None |}.

Definition set_sn_mva (c : PandaPowerConverter) (v : float) : PandaPowerConverter :=
  {| conv_sn_mva := Some v; conv_f_hz := conv_f_hz c |}.

Definition set_f_hz (c : PandaPowerConverter) (v : float) : PandaPowerConverter :=
  {| conv_sn_mva := conv_sn_mva c; conv_f_hz := Some v |}.

Record LineParamCall : Type := {
  lp_converter : PandaPowerConverter;
  lp_r : list float;
  lp_x : list float;
  lp_c : list float;
  lp_g : list float;
  lp_vn_from : list float;
  lp_vn_to : list float
}.

Record TrafoParamCall : Type := {
  tp_converter : PandaPowerConverter;
  tp_vn_hv_kv : list float;
  tp_vn_lv_kv : list float;
  tp_vk_percent : list float;
  tp_vkr_percent : list float;
  tp_sn_mva : list float;
  tp_pfe_kw : list float;
  tp_i0_percent : list float;
  tp_vn_lv_bus : list float
}.

Inductive ConvArray : Type :=
| line_r_of (c : LineParamCall)
| line_x_of (c : LineParamCall)
| line_h_of (c : LineParamCall)
| trafo_r_of (c : TrafoParamCall)
| trafo_x_of (c : TrafoParamCall)
| trafo_b_of (c : TrafoParamCall).

Definition get_line_param (c : LineParamCall) : ConvArray * ConvArray * ConvArray :=
  (line_r_of c, line_x_of c, line_h_of c).

Definition get_trafo_param (c : TrafoParamCall) : ConvArray * ConvArray * ConvArray :=
  (trafo_r_of c, trafo_x_of c, trafo_b_of c).

(** ** The C++ grid model

    [slack_gen_id] is a numpy array of positions on two of the three paths
    of [init] and a Python integer on the third. *)

Inductive GenId : Type :=
| id_array (positions : list nat)
| id_int (position : nat).

(** The methods [init] calls on the model, with their arguments. *)
Inductive Call : Type :=
| init_bus (vn_kv : list float) (nb_line nb_trafo : nat)
| init_powerlines (r x h : ConvArray) (from_bus_id to_bus_id : list Z)
| deactivate_powerline (line_id : nat)
| init_shunt (p_mw q_mvar : list float) (bus_id : list Z)
| deactivate_shunt (sh_id : nat)
| init_trafo (r x b : ConvArray) (tap_step_pct tap_position : list float)
    (is_tap_hv_side : list bool) (hv_bus_id lv_bus_id : list Z)
| deactivate_trafo (tr_id : nat)
| init_loads (p_mw q_mvar : list float) (bus_id : list Z)
| deactivate_load (load_id : nat)
| init_generators (p_mw vm_pu min_q max_q : list float) (bus_id : list Z)
| deactivate_gen (gen_id : nat)
| change_v_gen (gen_id : GenId) (vm_pu : list float)
| add_gen_slackbus (gen_id : GenId).

(** A [GridModel] object: the calls made on it since [GridModel()],
    oldest first. *)
Definition GridModel : Type := list Call.

Definition GridModel_new : GridModel := [].

(** [model.method(args)] *)
Definition call (c : Call) : M GridModel unit :=
  modify (fun model => model ++ [c]).

(** [tap_side == "hv"] on one entry; an unset tap side is not ["hv"]. *)
Definition is_hv (side : option string) : bool :=
  match side with
  | Some s => String.eqb s "hv"
  | None => false
  end.

(** The [for ..., sh_status in enumerate(...)] loops of [init]. *)
Definition deactivate_out_of_service (in_service : list bool)
    (deactivate : nat -> Call) : M GridModel unit :=
  for_enumerate in_service
    (fun elt_id sh_status =>
       if negb sh_status then call (deactivate elt_id) else ret tt).

(** ** [init(pp_net)]

    The masked assignments of lines 101, 104 and 107 are made in place on
    the arrays [init] has just taken from the table; [init] reads none of
    the three columns again, so each is a rebinding here.  What the
    caller's network holds after the call is not part of the model. *)
Definition init_body (pp_net : PPNet) : M GridModel GridModel :=
  (* initialize and use converters *)
  let converter := PandaPowerConverter_new in
  let converter := set_sn_mva converter (sn_mva pp_net) in
  let converter := set_f_hz converter (f_hz pp_net) in
  vn_from <- lift (pd.loc bus_index (bus pp_net) (map from_bus (line pp_net))) ;;
  vn_to <- lift (pd.loc bus_index (bus pp_net) (map to_bus (line pp_net))) ;;
  let '(line_r, line_x, line_h) :=
    get_line_param
      {| lp_converter := converter;
         lp_r := map (fun l => r_ohm_per_km l * length_km l)%float (line pp_net);
         lp_x := map (fun l => x_ohm_per_km l * length_km l)%float (line pp_net);
         lp_c := map (fun l => c_nf_per_km l * length_km l)%float (line pp_net);
         lp_g := map (fun l => g_us_per_km l * length_km l)%float (line pp_net);
         lp_vn_from := map bus_vn_kv vn_from;
         lp_vn_to := map bus_vn_kv vn_to |} in
  vn_lv <- lift (pd.loc bus_index (bus pp_net) (map lv_bus (trafo pp_net))) ;;
  let '(trafo_r, trafo_x, trafo_b) :=
    get_trafo_param
      {| tp_converter := converter;
         tp_vn_hv_kv := map vn_hv_kv (trafo pp_net);
         tp_vn_lv_kv := map vn_lv_kv (trafo pp_net);
         tp_vk_percent := map vk_percent (trafo pp_net);
         tp_vkr_percent := map vkr_percent (trafo pp_net);
         tp_sn_mva := map trafo_sn_mva (trafo pp_net);
         tp_pfe_kw := map pfe_kw (trafo pp_net);
         tp_i0_percent := map i0_percent (trafo pp_net);
         tp_vn_lv_bus := map bus_vn_kv vn_lv |} in

  (* set up the data model accordingly *)
  put GridModel_new ;;
  let tmp_bus_ind := np.argsort (map bus_index (bus pp_net)) in
  bus_sorted <- lift (pd.iloc (bus pp_net) tmp_bus_ind) ;;
  call (init_bus (map bus_vn_kv bus_sorted)
          (List.length (line pp_net)) (List.length (trafo pp_net))) ;;

  call (init_powerlines line_r line_x line_h
          (map from_bus (line pp_net)) (map to_bus (line pp_net))) ;;
  deactivate_out_of_service (map line_in_service (line pp_net))
    deactivate_powerline ;;

  (* init the shunts *)
  call (init_shunt (map shunt_p_mw (shunt pp_net))
          (map shunt_q_mvar (shunt pp_net)) (map shunt_bus (shunt pp_net))) ;;
  deactivate_out_of_service (map shunt_in_service (shunt pp_net))
    deactivate_shunt ;;

  (* handle the trafos *)
  let tap_step_pct := map tap_step_percent (trafo pp_net) in
  let tap_step_pct :=
    np.setitem_mask tap_step_pct (np.invert (np.isfinite tap_step_pct)) 0%float in

  let tap_pos := map tap_pos (trafo pp_net) in
  let tap_pos :=
    np.setitem_mask tap_pos (np.invert (np.isfinite tap_pos)) 0%float in

  let is_tap_hv_side := map (fun t => is_hv (tap_side t)) (trafo pp_net) in
  let is_tap_hv_side :=
    np.setitem_mask is_tap_hv_side (np.invert (np.isfinite tap_pos)) true in
  call (init_trafo trafo_r trafo_x trafo_b tap_step_pct tap_pos is_tap_hv_side
          (map hv_bus (trafo pp_net)) (map lv_bus (trafo pp_net))) ;;
  deactivate_out_of_service (map trafo_in_service (trafo pp_net))
    deactivate_trafo ;;

  (* handle loads *)
  call (init_loads (map load_p_mw (load pp_net))
          (map load_q_mvar (load pp_net)) (map load_bus (load pp_net))) ;;
  deactivate_out_of_service (map load_in_service (load pp_net))
    deactivate_load ;;

  (* handle generators *)
  call (init_generators (map gen_p_mw (gen pp_net)) (map gen_vm_pu (gen pp_net))
          (map min_q_mvar (gen pp_net)) (map max_q_mvar (gen pp_net))
          (map gen_bus (gen pp_net))) ;;
  deactivate_out_of_service (map gen_in_service (gen pp_net))
    deactivate_gen ;;

  (* deal with slack bus *)
  slack_gen_id <-
    (if np.any (map slack (gen pp_net)) then
       let slack_gen_id := np.where_ (map slack (gen pp_net)) in
       (* pp_net.gen["vm_pu"][slack_gen_id]: a lookup by index label *)
       vm <- lift (pd.loc gen_index (gen pp_net) (map Z.of_nat slack_gen_id)) ;;
       call (change_v_gen (id_array slack_gen_id) (map gen_vm_pu vm)) ;;
       ret (id_array slack_gen_id)
     else
       (* there is no slack bus in the generator of the pp grid *)
       slack_bus_id <- lift (np.item0 (map ext_grid_bus (ext_grid pp_net))) ;;
       if np.any (np.eq (map gen_bus (gen pp_net)) slack_bus_id) then
         ret (id_array (np.where_ (np.eq (map gen_bus (gen pp_net)) slack_bus_id)))
       else
         (* no gen is connected to a slack bus, so i create one. *)
         let gen_p :=
           np.concatenate (map gen_p_mw (gen pp_net))
             [(np.sum (map load_p_mw (load pp_net))
               - np.sum (map gen_p_mw (gen pp_net)))%float] in
         ext_vm <- lift (np.item0 (map ext_grid_vm_pu (ext_grid pp_net))) ;;
         let gen_v := np.concatenate (map gen_vm_pu (gen pp_net)) [ext_vm] in
         let gen_bus := np.concatenate (map gen_bus (gen pp_net)) [slack_bus_id] in
         let gen_min_q :=
           np.concatenate (map min_q_mvar (gen pp_net)) [(-999999)%float] in
         let gen_max_q :=
           np.concatenate (map max_q_mvar (gen pp_net)) [99999%float] in
         call (init_generators gen_p gen_v gen_min_q gen_max_q gen_bus) ;;
         ret (id_int (List.length (gen pp_net)))) ;;

  call (add_gen_slackbus slack_gen_id) ;;
  get.

(** The value of the call [init(pp_net)]: the model, or the exception. *)
Definition init (pp_net : PPNet) : result GridModel :=
  fst (init_body pp_net GridModel_new).

(** ** A functional description of [init]

    The same behaviour written without state: which lookups must succeed,
    and which calls the model receives.  [init] is proved equal to it
    below. *)

(** Some row of the table carries the label. *)
Definition has_label {Row : Type} (index : Row -> Z) (rows : list Row)
    (label : Z) : bool :=
  existsb (fun r => Z.eqb (index r) label) rows.

(** The rows at the given positions, skipping positions past the end. *)
Definition take_rows {Row : Type} (rows : list Row) (positions : list nat)
    : list Row :=
  flat_map (fun p => match nth_error rows p with
                     | Some r => [r]
                     | None => []
                     end) positions.

(** The [vn_kv] column of [bus.loc[labels]]. *)
Definition vn_kv_at (pp_net : PPNet) (labels : list Z) : list float :=
  map bus_vn_kv (flat_map (pd.rows_at bus_index (bus pp_net)) labels).

(** A tap value as [init_trafo] receives it. *)
Definition zero_if_not_finite (x : float) : float :=
  if is_finite x then x else 0%float.

(** Positions of the elements that are out of service. *)
Definition out_of_service (in_service : list bool) : list nat :=
  np.where_ (np.invert in_service).

(** The bus labels [init] looks up exist: both ends of every line and the
    low-voltage side of every transformer. *)
Definition bus_labels_found (pp_net : PPNet) : bool :=
  forallb (has_label bus_index (bus pp_net)) (map from_bus (line pp_net))
  && forallb (has_label bus_index (bus pp_net)) (map to_bus (line pp_net))
  && forallb (has_label bus_index (bus pp_net)) (map lv_bus (trafo pp_net)).

(** A slack can be chosen: the positions of the slack-flagged generators are
    also labels of the generator table, or, with no flagged generator, the
    [ext_grid] table has a first row. *)
Definition slack_found (pp_net : PPNet) : bool :=
  if np.any (map slack (gen pp_net)) then
    forallb (has_label gen_index (gen pp_net))
      (map Z.of_nat (np.where_ (map slack (gen pp_net))))
  else
    match ext_grid pp_net with
    | [] => false
    | _ :: _ => true
    end.

Definition accepted (pp_net : PPNet) : bool :=
  bus_labels_found pp_net && slack_found pp_net.

Definition converter_of (pp_net : PPNet) : PandaPowerConverter :=
  {| conv_sn_mva := Some (sn_mva pp_net); conv_f_hz := Some (f_hz pp_net) |}.

Definition line_param_call (pp_net : PPNet) : LineParamCall :=
  {| lp_converter := converter_of pp_net;
     lp_r := map (fun l => r_ohm_per_km l * length_km l)%float (line pp_net);
     lp_x := map (fun l => x_ohm_per_km l * length_km l)%float (line pp_net);
     lp_c := map (fun l => c_nf_per_km l * length_km l)%float (line pp_net);
     lp_g := map (fun l => g_us_per_km l * length_km l)%float (line pp_net);
     lp_vn_from := vn_kv_at pp_net (map from_bus (line pp_net));
     lp_vn_to := vn_kv_at pp_net (map to_bus (line pp_net)) |}.

Definition trafo_param_call (pp_net : PPNet) : TrafoParamCall :=
  {| tp_converter := converter_of pp_net;
     tp_vn_hv_kv := map vn_hv_kv (trafo pp_net);
     tp_vn_lv_kv := map vn_lv_kv (trafo pp_net);
     tp_vk_percent := map vk_percent (trafo pp_net);
     tp_vkr_percent := map vkr_percent (trafo pp_net);
     tp_sn_mva := map trafo_sn_mva (trafo pp_net);
     tp_pfe_kw := map pfe_kw (trafo pp_net);
     tp_i0_percent := map i0_percent (trafo pp_net);
     tp_vn_lv_bus := vn_kv_at pp_net (map lv_bus (trafo pp_net)) |}.

(** The initialisation call of each table. *)
Definition bus_call (pp_net : PPNet) : Call :=
  init_bus
    (map bus_vn_kv
       (take_rows (bus pp_net) (np.argsort (map bus_index (bus pp_net)))))
    (List.length (line pp_net)) (List.length (trafo pp_net)).

Definition powerlines_call (pp_net : PPNet) : Call :=
  init_powerlines (line_r_of (line_param_call pp_net))
    (line_x_of (line_param_call pp_net)) (line_h_of (line_param_call pp_net))
    (map from_bus (line pp_net)) (map to_bus (line pp_net)).

Definition shunt_call (pp_net : PPNet) : Call :=
  init_shunt (map shunt_p_mw (shunt pp_net)) (map shunt_q_mvar (shunt pp_net))
    (map shunt_bus (shunt pp_net)).

Definition trafo_call (pp_net : PPNet) : Call :=
  init_trafo (trafo_r_of (trafo_param_call pp_net))
    (trafo_x_of (trafo_param_call pp_net)) (trafo_b_of (trafo_param_call pp_net))
    (map (fun t => zero_if_not_finite (tap_step_percent t)) (trafo pp_net))
    (map (fun t => zero_if_not_finite (tap_pos t)) (trafo pp_net))
    (map (fun t => is_hv (tap_side t)) (trafo pp_net))
    (map hv_bus (trafo pp_net)) (map lv_bus (trafo pp_net)).

Definition loads_call (pp_net : PPNet) : Call :=
  init_loads (map load_p_mw (load pp_net)) (map load_q_mvar (load pp_net))
    (map load_bus (load pp_net)).

Definition generators_call (pp_net : PPNet) : Call :=
  init_generators (map gen_p_mw (gen pp_net)) (map gen_vm_pu (gen pp_net))
    (map min_q_mvar (gen pp_net)) (map max_q_mvar (gen pp_net))
    (map gen_bus (gen pp_net)).

(** The declared generators followed by one generator at the bus and voltage
    setpoint of an [ext_grid] row. *)
Definition synthetic_generators_call (pp_net : PPNet) (e : ExtGridRow) : Call :=
  init_generators
    (map gen_p_mw (gen pp_net)
       ++ [(np.sum (map load_p_mw (load pp_net))
            - np.sum (map gen_p_mw (gen pp_net)))%float])
    (map gen_vm_pu (gen pp_net) ++ [ext_grid_vm_pu e])
    (map min_q_mvar (gen pp_net) ++ [(-999999)%float])
    (map max_q_mvar (gen pp_net) ++ [99999%float])
    (map gen_bus (gen pp_net) ++ [ext_grid_bus e]).

(** The element tables that have an activation flag. *)
Inductive Table : Type :=
| powerlines
| shunts
| trafos
| loads
| generators.

(** The call that initialises a table. *)
Definition initialisation (t : Table) (pp_net : PPNet) : Call :=
  match t with
  | powerlines => powerlines_call pp_net
  | shunts => shunt_call pp_net
  | trafos => trafo_call pp_net
  | loads => loads_call pp_net
  | generators => generators_call pp_net
  end.

(** The call that switches off the element at a position of a table. *)
Definition deactivation (t : Table) : nat -> Call :=
  match t with
  | powerlines => deactivate_powerline
  | shunts => deactivate_shunt
  | trafos => deactivate_trafo
  | loads => deactivate_load
  | generators => deactivate_gen
  end.

(** The [in_service] column of a table. *)
Definition in_service_flags (t : Table) (pp_net : PPNet) : list bool :=
  match t with
  | powerlines => map line_in_service (line pp_net)
  | shunts => map shunt_in_service (shunt pp_net)
  | trafos => map trafo_in_service (trafo pp_net)
  | loads => map load_in_service (load pp_net)
  | generators => map gen_in_service (gen pp_net)
  end.

Definition all_tables : list Table :=
  [powerlines; shunts; trafos; loads; generators].

(** What [init] does with one table: initialise it whole, then switch off
    the positions that are out of service. *)
Definition table_calls (pp_net : PPNet) (t : Table) : list Call :=
  initialisation t pp_net
  :: map (deactivation t) (out_of_service (in_service_flags t pp_net)).

(** Everything up to the choice of the slack. *)
Definition element_calls (pp_net : PPNet) : list Call :=
  bus_call pp_net :: flat_map (table_calls pp_net) all_tables.

(** The choice of the slack. *)
Definition slack_calls (pp_net : PPNet) : result (list Call) :=
  if np.any (map slack (gen pp_net)) then
    let flagged := np.where_ (map slack (gen pp_net)) in
    if forallb (has_label gen_index (gen pp_net)) (map Z.of_nat flagged) then
      Returns
        [change_v_gen (id_array flagged)
           (map gen_vm_pu
              (flat_map (pd.rows_at gen_index (gen pp_net))
                 (map Z.of_nat flagged)));
         add_gen_slackbus (id_array flagged)]
    else Raises KeyError
  else
    match ext_grid pp_net with
    | [] => Raises IndexError
    | e :: _ =>
        let on_bus := np.eq (map gen_bus (gen pp_net)) (ext_grid_bus e) in
        if np.any on_bus then
          Returns [add_gen_slackbus (id_array (np.where_ on_bus))]
        else
          Returns [synthetic_generators_call pp_net e;
                   add_gen_slackbus (id_int (List.length (gen pp_net)))]
    end.

Definition init_spec (pp_net : PPNet) : result GridModel :=
  if bus_labels_found pp_net then
    match slack_calls pp_net with
    | Returns cs => Returns (element_calls pp_net ++ cs)
    | Raises e => Raises e
    end
  else Raises KeyError.

(** ** Vocabulary of the claims *)

(** A float column value [init] forwards without a default: every float it
    reads except the two tap columns. *)
Definition forwarded_floats (pp_net : PPNet) : list float :=
  [sn_mva pp_net; f_hz pp_net]
  ++ map bus_vn_kv (bus pp_net)
  ++ flat_map (fun l => [r_ohm_per_km l; x_ohm_per_km l; c_nf_per_km l;
                         g_us_per_km l; length_km l]) (line pp_net)
  ++ flat_map (fun t => [vn_hv_kv t; vn_lv_kv t; vk_percent t; vkr_percent t;
                         trafo_sn_mva t; pfe_kw t; i0_percent t]) (trafo pp_net)
  ++ flat_map (fun s => [shunt_p_mw s; shunt_q_mvar s]) (shunt pp_net)
  ++ flat_map (fun l => [load_p_mw l; load_q_mvar l]) (load pp_net)
  ++ flat_map (fun g => [gen_p_mw g; gen_vm_pu g; min_q_mvar g; max_q_mvar g])
       (gen pp_net)
  ++ map ext_grid_vm_pu (ext_grid pp_net).

Definition has_non_finite_value (pp_net : PPNet) : bool :=
  existsb (fun x => negb (is_finite x)) (forwarded_floats pp_net).

(** A line or a transformer names a bus that is not in the bus table. *)
Definition branch_on_missing_bus (pp_net : PPNet) : bool :=
  existsb (fun b => negb (has_label bus_index (bus pp_net) b))
    (map from_bus (line pp_net) ++ map to_bus (line pp_net)
     ++ map hv_bus (trafo pp_net) ++ map lv_bus (trafo pp_net)).

Definition malformed (pp_net : PPNet) : bool :=
  has_non_finite_value pp_net || branch_on_missing_bus pp_net.

(** A call that switches an element off. *)
Definition is_deactivation (c : Call) : bool :=
  match c with
  | deactivate_powerline _ | deactivate_shunt _ | deactivate_trafo _
  | deactivate_load _ | deactivate_gen _ => true
  | _ => false
  end.

(** A call that designates the slack. *)
Definition is_slack_registration (c : Call) : bool :=
  match c with
  | add_gen_slackbus _ => true
  | _ => false
  end.

(** How many elements an initialisation call hands to the model: the length
    of its bus column. *)
Definition elements_of (c : Call) : nat :=
  match c with
  | init_powerlines _ _ _ from_bus_id _ => List.length from_bus_id
  | init_shunt _ _ bus_id => List.length bus_id
  | init_trafo _ _ _ _ _ _ hv_bus_id _ => List.length hv_bus_id
  | init_loads _ _ bus_id => List.length bus_id
  | init_generators _ _ _ _ bus_id => List.length bus_id
  | _ => 0
  end.

(** In [model], the table is initialised by [init_call], and the elements
    switched off through [deactivate] are exactly the positions whose
    [in_service] flag is [False], none of them before [init_call]. *)
Definition initialised_then_deactivated (model : GridModel) (init_call : Call)
    (deactivate : nat -> Call) (in_service : list bool) : Prop :=
  (exists before after,
      model = before ++ init_call :: after
      /\ forall i, ~ In (deactivate i) before)
  /\ forall i, In (deactivate i) model <-> nth_error in_service i = Some false.

(** The same network with every element in service. *)
Definition all_in_service (pp_net : PPNet) : PPNet :=
  {| sn_mva := sn_mva pp_net;
     f_hz := f_hz pp_net;
     bus := bus pp_net;
     line :=
       map (fun l =>
              {| r_ohm_per_km := r_ohm_per_km l; x_ohm_per_km := x_ohm_per_km l;
                 c_nf_per_km := c_nf_per_km l; g_us_per_km := g_us_per_km l;
                 length_km := length_km l; from_bus := from_bus l;
                 to_bus := to_bus l; line_in_service := true |})
           (line pp_net);
     trafo :=
       map (fun t =>
              {| vn_hv_kv := vn_hv_kv t; vn_lv_kv := vn_lv_kv t;
                 vk_percent := vk_percent t; vkr_percent := vkr_percent t;
                 trafo_sn_mva := trafo_sn_mva t; pfe_kw := pfe_kw t;
                 i0_percent := i0_percent t;
                 tap_step_percent := tap_step_percent t; tap_pos := tap_pos t;
                 tap_side := tap_side t; hv_bus := hv_bus t; lv_bus := lv_bus t;
                 trafo_in_service := true |})
           (trafo pp_net);
     shunt :=
       map (fun sh =>
              {| shunt_p_mw := shunt_p_mw sh; shunt_q_mvar := shunt_q_mvar sh;
                 shunt_bus := shunt_bus sh; shunt_in_service := true |})
           (shunt pp_net);
     load :=
       map (fun l =>
              {| load_p_mw := load_p_mw l; load_q_mvar := load_q_mvar l;
                 load_bus := load_bus l; load_in_service := true |})
           (load pp_net);
     gen :=
       map (fun g =>
              {| gen_index := gen_index g; gen_p_mw := gen_p_mw g;
                 gen_vm_pu := gen_vm_pu g; min_q_mvar := min_q_mvar g;
                 max_q_mvar := max_q_mvar g; gen_bus := gen_bus g;
                 gen_in_service := true; slack := slack g |})
           (gen pp_net);
     ext_grid := ext_grid pp_net |}.

(** ** Example networks *)

Definition example_net : PPNet :=
  {| sn_mva := 1%float;
     f_hz := 50%float;
     bus := [ {| bus_index := 2; bus_vn_kv := 20%float |};
              {| bus_index := 0; bus_vn_kv := 110%float |};
              {| bus_index := 1; bus_vn_kv := 110%float |} ];
     line := [ {| r_ohm_per_km := 0.5%float; x_ohm_per_km := 0.25%float;
                  c_nf_per_km := 8%float; g_us_per_km := 0%float;
                  length_km := 4%float; from_bus := 0; to_bus := 1;
                  line_in_service := true |};
               {| r_ohm_per_km := 0.5%float; x_ohm_per_km := 0.25%float;
                  c_nf_per_km := 8%float; g_us_per_km := 0%float;
                  length_km := 2%float; from_bus := 1; to_bus := 0;
                  line_in_service := false |} ];
     trafo := [ {| vn_hv_kv := 110%float; vn_lv_kv := 20%float;
                   vk_percent := 12%float; vkr_percent := 0.25%float;
                   trafo_sn_mva := 25%float; pfe_kw := 14%float;
                   i0_percent := 0.125%float;
                   tap_step_percent := infinity; tap_pos := nan;
                   tap_side := Some "lv"%string; hv_bus := 1; lv_bus := 2;
                   trafo_in_service := true |};
                {| vn_hv_kv := 110%float; vn_lv_kv := 20%float;
                   vk_percent := 12%float; vkr_percent := 0.25%float;
                   trafo_sn_mva := 25%float; pfe_kw := 14%float;
                   i0_percent := 0.125%float;
                   tap_step_percent := 1.5%float; tap_pos := (-2)%float;
                   tap_side := Some "hv"%string; hv_bus := 0; lv_bus := 2;
                   trafo_in_service := false |} ];
     shunt := [ {| shunt_p_mw := 0%float; shunt_q_mvar := (-1.5)%float;
                   shunt_bus := 2; shunt_in_service := false |} ];
     load := [ {| load_p_mw := 10%float; load_q_mvar := 2%float;
                  load_bus := 2; load_in_service := true |};
               {| load_p_mw := 5.5%float; load_q_mvar := 1%float;
                  load_bus := 1; load_in_service := false |} ];
     gen := [ {| gen_index := 0; gen_p_mw := 6%float; gen_vm_pu := 1.5%float;
                 min_q_mvar := (-3)%float; max_q_mvar := 3%float;
                 gen_bus := 1; gen_in_service := false; slack := false |} ];
     ext_grid := [ {| ext_grid_bus := 0; ext_grid_vm_pu := 1.25%float |} ] |}.

(** [example_net] with a NaN active power on its first load, an infinite
    line resistance, and its first transformer's high-voltage side on bus 7,
    which does not exist. *)
Definition malformed_net : PPNet :=
  {| sn_mva := sn_mva example_net;
     f_hz := f_hz example_net;
     bus := bus example_net;
     line := [ {| r_ohm_per_km := infinity; x_ohm_per_km := 0.25%float;
                  c_nf_per_km := 8%float; g_us_per_km := 0%float;
                  length_km := 4%float; from_bus := 0; to_bus := 1;
                  line_in_service := true |} ];
     trafo := [ {| vn_hv_kv := 110%float; vn_lv_kv := 20%float;
                   vk_percent := 12%float; vkr_percent := 0.25%float;
                   trafo_sn_mva := 25%float; pfe_kw := 14%float;
                   i0_percent := 0.125%float;
                   tap_step_percent := 1.5%float; tap_pos := 0%float;
                   tap_side := Some "hv"%string; hv_bus := 7; lv_bus := 2;
                   trafo_in_service := true |} ];
     shunt := [];
     load := [ {| load_p_mw := nan; load_q_mvar := 2%float;
                  load_bus := 2; load_in_service := true |} ];
     gen := gen example_net;
     ext_grid := ext_grid example_net |}.

(** A network with two generators, both flagged as slack. *)
Definition two_slack_net : PPNet :=
  {| sn_mva := 1%float;
     f_hz := 50%float;
     bus := [ {| bus_index := 0; bus_vn_kv := 110%float |};
              {| bus_index := 1; bus_vn_kv := 110%float |} ];
     line := [ {| r_ohm_per_km := 0.5%float; x_ohm_per_km := 0.25%float;
                  c_nf_per_km := 8%float; g_us_per_km := 0%float;
                  length_km := 4%float; from_bus := 0; to_bus := 1;
                  line_in_service := true |} ];
     trafo := [];
     shunt := [];
     load := [ {| load_p_mw := 10%float; load_q_mvar := 2%float;
                  load_bus := 1; load_in_service := true |} ];
     gen := [ {| gen_index := 0; gen_p_mw := 6%float; gen_vm_pu := 1.5%float;
                 min_q_mvar := (-3)%float; max_q_mvar := 3%float;
                 gen_bus := 0; gen_in_service := true; slack := true |};
              {| gen_index := 1; gen_p_mw := 4%float; gen_vm_pu := 1.25%float;
                 min_q_mvar := (-3)%float; max_q_mvar := 3%float;
                 gen_bus := 1; gen_in_service := true; slack := true |} ];
     ext_grid := [] |}.

(** A network with ten loads of a tenth of a megawatt each, one generator
    that is neither flagged as slack nor on the [ext_grid] bus, and no
    transformer or shunt. *)
Definition ten_loads_net : PPNet :=
  {| sn_mva := 1%float;
     f_hz := 50%float;
     bus := [ {| bus_index := 0; bus_vn_kv := 110%float |};
              {| bus_index := 1; bus_vn_kv := 110%float |} ];
     line := [ {| r_ohm_per_km := 0.5%float; x_ohm_per_km := 0.25%float;
                  c_nf_per_km := 8%float; g_us_per_km := 0%float;
                  length_km := 4%float; from_bus := 0; to_bus := 1;
                  line_in_service := true |} ];
     trafo := [];
     shunt := [];
     load :=
       repeat {| load_p_mw := (1 / 10)%float; load_q_mvar := 0%float;
                 load_bus := 1; load_in_service := true |} 10;
     gen := [ {| gen_index := 0; gen_p_mw := 0.25%float; gen_vm_pu := 1.5%float;
                 min_q_mvar := (-3)%float; max_q_mvar := 3%float;
                 gen_bus := 1; gen_in_service := true; slack := false |} ];
     ext_grid := [ {| ext_grid_bus := 0; ext_grid_vm_pu := 1.25%float |} ] |}.

(** [ten_loads_net] with its line starting at bus 7, which does not
    exist. *)
Definition missing_bus_net : PPNet :=
  {| sn_mva := sn_mva ten_loads_net;
     f_hz := f_hz ten_loads_net;
     bus := bus ten_loads_net;
     line := [ {| r_ohm_per_km := 0.5%float; x_ohm_per_km := 0.25%float;
                  c_nf_per_km := 8%float; g_us_per_km := 0%float;
                  length_km := 4%float; from_bus := 7; to_bus := 1;
                  line_in_service := true |} ];
     trafo := [];
     shunt := [];
     load := load ten_loads_net;
     gen := gen ten_loads_net;
     ext_grid := ext_grid ten_loads_net |}.

(** [example_net] with a NaN active power on its first load. *)
Definition nan_load_net : PPNet :=
  {| sn_mva := sn_mva example_net;
     f_hz := f_hz example_net;
     bus := bus example_net;
     line := line example_net;
     trafo := trafo example_net;
     shunt := shunt example_net;
     load := [ {| load_p_mw := nan; load_q_mvar := 2%float;
                  load_bus := 2; load_in_service := true |};
               {| load_p_mw := 5.5%float; load_q_mvar := 1%float;
                  load_bus := 1; load_in_service := false |} ];
     gen := gen example_net;
     ext_grid := ext_grid example_net |}.

(** ** Further vocabulary *)

(** The same network with another [ext_grid] table. *)
Definition with_ext_grid (rows : list ExtGridRow) (pp_net : PPNet) : PPNet :=
  {| sn_mva := sn_mva pp_net; f_hz := f_hz pp_net; bus := bus pp_net;
     line := line pp_net; trafo := trafo pp_net; shunt := shunt pp_net;
     load := load pp_net; gen := gen pp_net; ext_grid := rows |}.

(** The columns of an initialisation call have one common length. *)
Definition well_shaped (c : Call) : bool :=
  match c with
  | init_powerlines _ _ _ from_bus_id to_bus_id =>
      Nat.eqb (List.length from_bus_id) (List.length to_bus_id)
  | init_shunt p q bus_id =>
      Nat.eqb (List.length p) (List.length bus_id)
      && Nat.eqb (List.length q) (List.length bus_id)
  | init_trafo _ _ _ tap_step tap_position side hv_bus_id lv_bus_id =>
      Nat.eqb (List.length tap_step) (List.length hv_bus_id)
      && Nat.eqb (List.length tap_position) (List.length hv_bus_id)
      && Nat.eqb (List.length side) (List.length hv_bus_id)
      && Nat.eqb (List.length lv_bus_id) (List.length hv_bus_id)
  | init_loads p q bus_id =>
      Nat.eqb (List.length p) (List.length bus_id)
      && Nat.eqb (List.length q) (List.length bus_id)
  | init_generators p v min_q max_q bus_id =>
      Nat.eqb (List.length p) (List.length bus_id)
      && Nat.eqb (List.length v) (List.length bus_id)
      && Nat.eqb (List.length min_q) (List.length bus_id)
      && Nat.eqb (List.length max_q) (List.length bus_id)
  | _ => true
  end.

(** The number of generators an [init_generators] call declares; [None] for
    any other call. *)
Definition generators_declared (c : Call) : option nat :=
  match c with
  | init_generators _ _ _ _ bus_id => Some (List.length bus_id)
  | _ => None
  end.

(** The number of generators declared by the last [init_generators] call
    of a model, if it has one. *)
Definition last_declared (model : list Call) : option nat :=
  fold_left (fun acc c => match generators_declared c with
                          | Some n => Some n
                          | None => acc
                          end) model None.

(** A call that initialises the elements of a table, whatever its
    arguments. *)
Definition initialises (t : Table) (c : Call) : bool :=
  match t, c with
  | powerlines, init_powerlines _ _ _ _ _
  | shunts, init_shunt _ _ _
  | trafos, init_trafo _ _ _ _ _ _ _ _
  | loads, init_loads _ _ _
  | generators, init_generators _ _ _ _ _ => true
  | _, _ => false
  end.

(** [init] takes the last of its three slack paths: no generator is flagged
    as slack and none sits on the bus of the first [ext_grid] row. *)
Definition fabricates_slack (pp_net : PPNet) : bool :=
  negb (np.any (map slack (gen pp_net)))
  && match ext_grid pp_net with
     | [] => false
     | e :: _ =>
         negb (np.any (np.eq (map gen_bus (gen pp_net)) (ext_grid_bus e)))
     end.

(** In [model], the table is initialised by [init_call] and by no other
    call, and the elements switched off are exactly the positions whose
    [in_service] flag is [False], all of them after [init_call]. *)
Definition initialised_once_then_deactivated (model : GridModel) (t : Table)
    (init_call : Call) (in_service : list bool) : Prop :=
  exists before after,
    model = before ++ init_call :: after
    /\ Forall (fun c => initialises t c = false) (before ++ after)
    /\ (forall i, ~ In (deactivation t i) before)
    /\ (forall i, In (deactivation t i) after
                  <-> nth_error in_service i = Some false).

(** The nominal voltage of the first bus carrying a label. *)
Definition vn_kv_of (pp_net : PPNet) (label : Z) : option float :=
  option_map bus_vn_kv
    (find (fun b => Z.eqb (bus_index b) label) (bus pp_net)).

End InitGridModel.


(* ================================================================= *)
(** * [pyklu/compute_powerflow.py] *)

Module Pyklu.

(** ** Values handed between pandapower, scipy, numpy and the solver

    The driver never looks inside these values: it receives them from one
    library function and hands them to the next. *)

Class PyTypes : Type := {
  Array : Type;      (* numpy arrays: voltages, injections, index sets, ppci tables *)
  Matrix : Type;     (* Ybus, Yf, Yt and the Jacobian *)
  Ppc : Type;
  Ppci : Type;
  NetData : Type;    (* the element and result tables of a pandapower net *)
  Kwargs : Type;     (* the [**kwargs] of [runpp] *)
  Passed : Type;     (* what [_passed_runpp_parameters] returns *)
  OtherOptions : Type;
  MakeYbus : Type;
  Timers : Type
}.

(** [options["init_va_degree"]] is a string (["dc"], ["flat"], ...) or a
    numeric initial guess. *)
Inductive InitVaDegree : Type :=
| va_str (s : string)
| va_numeric.

(** The option dictionary [net["_options"]] as pandapower's
    [_init_runpp_options] leaves it, at the keys this file reads. *)
Record Options `{PyTypes} : Type := {
  ac : bool;
  init_results : bool;
  algorithm : string;
  voltage_depend_loads : bool;
  init_va_degree : InitVaDegree;
  enforce_q_lims : bool;
  max_iteration : Z;
  tolerance_mva : float;
  other_options : OtherOptions
}.

Definition set_voltage_depend_loads `{PyTypes} (v : bool) (o : Options) : Options :=
  {| ac := ac o; init_results := init_results o; algorithm := algorithm o;
     voltage_depend_loads := v; init_va_degree := init_va_degree o;
     enforce_q_lims := enforce_q_lims o; max_iteration := max_iteration o;
     tolerance_mva := tolerance_mva o; other_options := other_options o |}.

(** A pandapower net, at the keys [runpp] reads or writes itself. *)
Record Net `{PyTypes} : Type := {
  _options : Options;
  converged : bool;
  OPF_converged : bool;
  _ppc : option Ppc;
  net_data : NetData
}.

Definition set_options `{PyTypes} (o : Options) (n : Net) : Net :=
  {| _options := o; converged := converged n; OPF_converged := OPF_converged n;
     _ppc := _ppc n; net_data := net_data n |}.

Definition set_converged `{PyTypes} (b : bool) (n : Net) : Net :=
  {| _options := _options n; converged := b; OPF_converged := OPF_converged n;
     _ppc := _ppc n; net_data := net_data n |}.

Definition set_OPF_converged `{PyTypes} (b : bool) (n : Net) : Net :=
  {| _options := _options n; converged := converged n; OPF_converged := b;
     _ppc := _ppc n; net_data := net_data n |}.

Definition set_ppc `{PyTypes} (p : Ppc) (n : Net) : Net :=
  {| _options := _options n; converged := converged n;
     OPF_converged := OPF_converged n; _ppc := Some p; net_data := net_data n |}.

(** The tuple [_get_pf_variables_from_ppci] returns; the two components
    [runpp] discards are left out. *)
Record PfVariables `{PyTypes} : Type := {
  pf_baseMVA : float;
  pf_bus : Array;
  pf_gen : Array;
  pf_branch : Array;
  pf_ref : Array;
  pf_pv : Array;
  pf_pq : Array;
  pf_V0 : Array;
  pf_ref_gens : Array
}.

(** A value of the dictionary given to [_store_internal].  Attributes of
    [self] may still be [None]; wall-clock durations are not modelled. *)
Inductive Stored `{PyTypes} : Type :=
| st_matrix (m : option Matrix)
| st_array (a : option Array)
| st_float (x : option float)
| st_timers (t : Timers)
| st_None
| st_elapsed.

(** ** The pandapower, scipy and numpy functions the driver calls

    Each is a function of the arguments that vary between calls; the
    keyword arguments [runpp] always passes as constants
    ([algorithm="nr"], [tolerance_mva=1e-8], [enforce_q_lims=False], ...)
    and the constant [False] given to [_get_Sbus] are part of the function.
    A function that mutates the net returns the net it leaves.

    The functions are taken on the nets they accept.  On such a net one
    call of [runpp] still raises: [_ppci_to_net(result, net)] cleans the net
    up and raises [LoadflowNotConverged] when [result["success"]] is not
    set, and fills the result tables of the net otherwise.
    [result["success"]] is what [_store_results_from_pf_in_ppci] was given
    as [success]. *)
Class Pandapower `{PyTypes} : Type := {
  _passed_runpp_parameters : Net -> Z -> bool -> Kwargs -> Passed;
  _init_runpp_options : Net -> Z -> Passed -> Kwargs -> Net;
  _add_auxiliary_elements : Net -> Net;
  verify_results : Net -> Net;
  reset_results : Net -> Net;
  _pd2ppc : Net -> Net * Ppc * Ppci;
  _run_dc_pf : Ppci -> Ppci;
  _get_numba_functions : Ppci -> Options -> MakeYbus;
  _get_pf_variables_from_ppci : Ppci -> PfVariables;
  _get_Y_bus : Ppci -> Options -> MakeYbus -> float -> Array -> Array
               -> Ppci * Matrix * Matrix * Matrix;
  _get_Sbus : Ppci -> Array;
  _store_internal : Ppci -> list (string * Stored) -> Ppci;
  ppci_to_pfsoln : Ppci -> Options -> Array * Array * Array;
  _store_results_from_pf_in_ppci :
    Ppci -> Array -> Array -> Array -> bool -> Z -> Ppci;
  _ppci_to_net : Ppci -> Net -> result unit * Net;
  (* scipy.sparse.csc_matrix *)
  csc_matrix : Matrix -> Matrix;
  (* Vm * np.exp(1j * Va) *)
  np_exp_1j : Array -> Array;
  np_mul : Array -> Array -> Array;
  (* the outcome of [_ppci_to_net] on a result of
     [_store_results_from_pf_in_ppci] *)
  _ppci_to_net_outcome :
    forall (p : Ppci) (bus_ gen_ branch_ : Array) (success : bool)
           (iterations : Z) (n : Net),
      fst (_ppci_to_net
             (_store_results_from_pf_in_ppci p bus_ gen_ branch_ success
                iterations) n)
      = if success then Returns tt else Raises LoadflowNotConverged
}.

(** Modelled from the spec: the [KLUSolver] class of [pyklu_cpp], whose C++
    source is not part of the Python sources.  A solve runs to a terminal
    state (converged, diverged, or iteration budget exhausted) and always
    returns; the outcome is read back through [converged()] and the other
    accessors (spec 4.2 and 7).  Each instance owns its state (spec 5). *)
Class KLUSolverClass `{PyTypes} : Type := {
  SolverState : Type;
  fresh_state : SolverState;
  reset_state : SolverState -> SolverState;
  solve_state :
    Matrix -> Array -> Array -> Array -> Array -> Z -> float
    -> SolverState -> SolverState;
  Va_of : SolverState -> Array;
  Vm_of : SolverState -> Array;
  J_of : SolverState -> Matrix;
  converged_of : SolverState -> bool;
  nb_iter_of : SolverState -> Z;
  timers_of : SolverState -> Timers
}.

Section Driver.
Context `{T : PyTypes} {P : Pandapower} {K : KLUSolverClass}.

(** ** Solver objects

    The state-changing calls made on one solver object are recorded next to
    its state, oldest first. *)
Inductive SolverCall : Type :=
| called_reset
| called_solve (Ybus : Matrix) (V Sbus pv pq : Array) (max_it : Z) (tol : float).

Record SolverObject : Type := {
  state : SolverState;
  calls : list SolverCall
}.

(** All solver objects constructed so far; a reference is a position. *)
Definition Heap : Type := list SolverObject.

Definition new_object : SolverObject :=
  {| state := fresh_state; calls := [] |}.

(** [KLUSolver()] *)
Definition KLUSolver : M Heap nat :=
  fun h => (Returns (List.length h), h ++ [new_object]).

(** The object behind a reference.  References only come from [KLUSolver],
    so the default is never reached. *)
Definition deref (r : nat) (h : Heap) : SolverObject := nth r h new_object.

Fixpoint update (r : nat) (f : SolverObject -> SolverObject) (h : Heap) : Heap :=
  match h, r with
  | [], _ => []
  | o :: h', O => f o :: h'
  | o :: h', S r' => o :: update r' f h'
  end.

(** [solver.reset()] *)
Definition reset (r : nat) : M Heap unit :=
  modify (update r (fun o =>
    {| state := reset_state (state o); calls := calls o ++ [called_reset] |})).

(** [solver.solve(Ybus, V, Sbus, pv, pq, max_it, tol)] *)
Definition solve (r : nat) (Ybus : Matrix) (V Sbus pv pq : Array)
    (max_it : Z) (tol : float) : M Heap unit :=
  modify (update r (fun o =>
    {| state := solve_state Ybus V Sbus pv pq max_it tol (state o);
       calls := calls o ++ [called_solve Ybus V Sbus pv pq max_it tol] |})).

(** The accessors [get_Va()], [get_Vm()], [get_J()], [converged()],
    [get_nb_iter()], [get_timers()]. *)
Definition read {A : Type} (r : nat) (f : SolverState -> A) : M Heap A :=
  fun h => (Returns (f (state (deref r h))), h).

Definition get_Va (r : nat) : M Heap Array := read r Va_of.
Definition get_Vm (r : nat) : M Heap Array := read r Vm_of.
Definition get_J (r : nat) : M Heap Matrix := read r J_of.
Definition solver_converged (r : nat) : M Heap bool := read r converged_of.
Definition get_nb_iter (r : nat) : M Heap Z := read r nb_iter_of.
Definition get_timers (r : nat) : M Heap Timers := read r timers_of.

(** ** [newtonpf(Ybus, V, Sbus, pv, pq, ppci, options)] *)
Definition newtonpf (Ybus : Matrix) (V Sbus pv pq : Array) (ppci : Ppci)
    (options : Options) : M Heap (Array * bool * Z * Matrix) :=
  let max_it := max_iteration options in
  let tol := tolerance_mva options in
  (* initialize the solver *)
  solver <- KLUSolver ;;
  let Ybus := csc_matrix Ybus in
  (* do the newton raphson algorithm *)
  solve solver Ybus V Sbus pv pq max_it tol ;;
  (* extract the results *)
  Va <- get_Va solver ;;
  Vm <- get_Vm solver ;;
  let V := np_mul Vm (np_exp_1j Va) in
  J <- get_J solver ;;
  converged <- solver_converged solver ;;
  iterations <- get_nb_iter solver ;;
  ret (V, converged, iterations, J).

(** ** [class KLU4Pandapower] *)

(** The attributes [__init__] sets; all but [solver] start as [None]. *)
Record KLU4Pandapower : Type := {
  solver : nat;
  ppci : option Ppci;
  V : option Array;
  Ybus : option Matrix;
  pv : option Array;
  pq : option Array;
  Yf : option Matrix;
  Yt : option Matrix;
  bus : option Array;
  gen : option Array;
  branch : option Array;
  ref : option Array;
  ref_gens : option Array;
  baseMVA : option float
}.

Definition set_ppci (v : option Ppci) (o : KLU4Pandapower) : KLU4Pandapower :=
  {| solver := solver o; ppci := v; V := V o; Ybus := Ybus o; pv := pv o;
     pq := pq o; Yf := Yf o; Yt := Yt o; bus := bus o; gen := gen o;
     branch := branch o; ref := ref o; ref_gens := ref_gens o;
     baseMVA := baseMVA o |}.

Definition set_V (v : option Array) (o : KLU4Pandapower) : KLU4Pandapower :=
  {| solver := solver o; ppci := ppci o; V := v; Ybus := Ybus o; pv := pv o;
     pq := pq o; Yf := Yf o; Yt := Yt o; bus := bus o; gen := gen o;
     branch := branch o; ref := ref o; ref_gens := ref_gens o;
     baseMVA := baseMVA o |}.

Definition set_Ybus (v : option Matrix) (o : KLU4Pandapower) : KLU4Pandapower :=
  {| solver := solver o; ppci := ppci o; V := V o; Ybus := v; pv := pv o;
     pq := pq o; Yf := Yf o; Yt := Yt o; bus := bus o; gen := gen o;
     branch := branch o; ref := ref o; ref_gens := ref_gens o;
     baseMVA := baseMVA o |}.

Definition set_pv (v : option Array) (o : KLU4Pandapower) : KLU4Pandapower :=
  {| solver := solver o; ppci := ppci o; V := V o; Ybus := Ybus o; pv := v;
     pq := pq o; Yf := Yf o; Yt := Yt o; bus := bus o; gen := gen o;
     branch := branch o; ref := ref o; ref_gens := ref_gens o;
     baseMVA := baseMVA o |}.

Definition set_pq (v : option Array) (o : KLU4Pandapower) : KLU4Pandapower :=
  {| solver := solver o; ppci := ppci o; V := V o; Ybus := Ybus o; pv := pv o;
     pq := v; Yf := Yf o; Yt := Yt o; bus := bus o; gen := gen o;
     branch := branch o; ref := ref o; ref_gens := ref_gens o;
     baseMVA := baseMVA o |}.

Definition set_Yf (v : option Matrix) (o : KLU4Pandapower) : KLU4Pandapower :=
  {| solver := solver o; ppci := ppci o; V := V o; Ybus := Ybus o; pv := pv o;
     pq := pq o; Yf := v; Yt := Yt o; bus := bus o; gen := gen o;
     branch := branch o; ref := ref o; ref_gens := ref_gens o;
     baseMVA := baseMVA o |}.

Definition set_Yt (v : option Matrix) (o : KLU4Pandapower) : KLU4Pandapower :=
  {| solver := solver o; ppci := ppci o; V := V o; Ybus := Ybus o; pv := pv o;
     pq := pq o; Yf := Yf o; Yt := v; bus := bus o; gen := gen o;
     branch := branch o; ref := ref o; ref_gens := ref_gens o;
     baseMVA := baseMVA o |}.

Definition set_bus (v : option Array) (o : KLU4Pandapower) : KLU4Pandapower :=
  {| solver := solver o; ppci := ppci o; V := V o; Ybus := Ybus o; pv := pv o;
     pq := pq o; Yf := Yf o; Yt := Yt o; bus := v; gen := gen o;
     branch := branch o; ref := ref o; ref_gens := ref_gens o;
     baseMVA := baseMVA o |}.

Definition set_gen (v : option Array) (o : KLU4Pandapower) : KLU4Pandapower :=
  {| solver := solver o; ppci := ppci o; V := V o; Ybus := Ybus o; pv := pv o;
     pq := pq o; Yf := Yf o; Yt := Yt o; bus := bus o; gen := v;
     branch := branch o; ref := ref o; ref_gens := ref_gens o;
     baseMVA := baseMVA o |}.

Definition set_branch (v : option Array) (o : KLU4Pandapower) : KLU4Pandapower :=
  {| solver := solver o; ppci := ppci o; V := V o; Ybus := Ybus o; pv := pv o;
     pq := pq o; Yf := Yf o; Yt := Yt o; bus := bus o; gen := gen o;
     branch := v; ref := ref o; ref_gens := ref_gens o;
     baseMVA := baseMVA o |}.

Definition set_ref (v : option Array) (o : KLU4Pandapower) : KLU4Pandapower :=
  {| solver := solver o; ppci := ppci o; V := V o; Ybus := Ybus o; pv := pv o;
     pq := pq o; Yf := Yf o; Yt := Yt o; bus := bus o; gen := gen o;
     branch := branch o; ref := v; ref_gens := ref_gens o;
     baseMVA := baseMVA o |}.

Definition set_ref_gens (v : option Array) (o : KLU4Pandapower) : KLU4Pandapower :=
  {| solver := solver o; ppci := ppci o; V := V o; Ybus := Ybus o; pv := pv o;
     pq := pq o; Yf := Yf o; Yt := Yt o; bus := bus o; gen := gen o;
     branch := branch o; ref := ref o; ref_gens := v;
     baseMVA := baseMVA o |}.

Definition set_baseMVA (v : option float) (o : KLU4Pandapower) : KLU4Pandapower :=
  {| solver := solver o; ppci := ppci o; V := V o; Ybus := Ybus o; pv := pv o;
     pq := pq o; Yf := Yf o; Yt := Yt o; bus := bus o; gen := gen o;
     branch := branch o; ref := ref o; ref_gens := ref_gens o;
     baseMVA := v |}.

(** [KLU4Pandapower()] *)
Definition KLU4Pandapower_init : M Heap KLU4Pandapower :=
  solver_ref <- KLUSolver ;;
  ret {| solver := solver_ref; ppci := None; V := None; Ybus := None;
         pv := None; pq := None; Yf := None; Yt := None; bus := None;
         gen := None; branch := None; ref := None; ref_gens := None;
         baseMVA := None |}.

(** What a call [self.runpp(net, ...)] can read and mutate: the solver
    objects, the object [self] and the dictionary [net]. *)
Record Store : Type := {
  solvers : Heap;
  self : KLU4Pandapower;
  net : Net
}.

(** [self.attr] *)
Definition attr {A : Type} (f : KLU4Pandapower -> A) : M Store A :=
  fun s => (Returns (f (self s)), s).

(** [self.attr = v] *)
Definition assign (f : KLU4Pandapower -> KLU4Pandapower) : M Store unit :=
  modify (fun s => {| solvers := solvers s; self := f (self s); net := net s |}).

Definition the_net : M Store Net :=
  fun s => (Returns (net s), s).

(** A mutation of [net], by a key assignment or inside a pandapower call. *)
Definition on_net (f : Net -> Net) : M Store unit :=
  modify (fun s => {| solvers := solvers s; self := self s; net := f (net s) |}).

(** [_ppci_to_net(result, net)]: the net is mutated also when the call
    raises. *)
Definition ppci_to_net (result_ : Ppci) : M Store unit :=
  fun s =>
    let '(r, n) := _ppci_to_net result_ (net s) in
    (r, {| solvers := solvers s; self := self s; net := n |}).

(** A call on a solver object. *)
Definition on_solvers {A : Type} (m : M Heap A) : M Store A :=
  fun s =>
    let '(r, h) := m (solvers s) in
    (r, {| solvers := h; self := self s; net := net s |}).

(** A library function handed [None] where it needs a value fails with
    [TypeError]. *)
Definition not_None {St A : Type} (o : option A) : M St A :=
  match o with
  | Some a => ret a
  | None => raise TypeError
  end.

(** ** [KLU4Pandapower.runpp(self, net, max_iteration=10, need_reset=True, **kwargs)]

    The [time()] readings and the durations derived from them are left out;
    [_check_bus_index_and_print_warning_if_high] and its generator twin only
    log; the [VERBOSE] default is written to a [kwargs] that is not read
    again.  The body is cut where the source marks the passage from
    [pp.powerflow._powerflow()] to [run_newton_raphson_pf()]. *)

(** Lines 69-121: options, result tables, conversion of the net to a ppci. *)
Definition runpp_powerflow (max_iteration_ : Z) (need_reset : bool)
    (kwargs : Kwargs) : M Store Options :=
  (* ---------- pp.run.runpp() ----------------- *)
  net0 <- the_net ;;
  let passed_parameters :=
    _passed_runpp_parameters net0 max_iteration_ need_reset kwargs in
  on_net (fun n => _init_runpp_options n max_iteration_ passed_parameters kwargs) ;;

  (* ---------- pp.powerflow._powerflow() ----------------- *)
  (* get infos from options *)
  net1 <- the_net ;;
  let init_results_ := init_results (_options net1) in
  let ac_ := ac (_options net1) in
  let algorithm_ := algorithm (_options net1) in

  on_net (set_converged false) ;;
  on_net (set_OPF_converged false) ;;
  on_net _add_auxiliary_elements ;;

  (if negb ac_ || init_results_
   then on_net verify_results
   else on_net reset_results) ;;

  (if negb (existsb (String.eqb algorithm_) ["nr"; "bfsw"]%string)
   then on_net (fun n => set_options (set_voltage_depend_loads false (_options n)) n)
   else ret tt) ;;

  on_net _add_auxiliary_elements ;;
  (* convert pandapower net to ppc *)
  net2 <- the_net ;;
  let '(net3, ppc, ppci_) := _pd2ppc net2 in
  on_net (fun _ => net3) ;;
  assign (set_ppci (Some ppci_)) ;;

  (* store variables *)
  on_net (set_ppc ppc) ;;

  (* ----- run the powerflow ----- *)
  net4 <- the_net ;;
  let options := _options net4 in
  ret options.

(** Lines 123-214: initialisation of the solve, the solve, the results. *)
Definition runpp_run_newton_raphson_pf (need_reset : bool) (options : Options)
    : M Store unit :=
  V0 <-
    (if need_reset then
       (match init_va_degree options with
        | va_str s =>
            if String.eqb s "dc" then
              p <- attr ppci ;;
              p <- not_None p ;;
              assign (set_ppci (Some (_run_dc_pf p)))
            else ret tt
        | va_numeric => ret tt
        end) ;;
       (if enforce_q_lims options
        then raise (NotImplementedError "enforce_q_lims not yet implemented")
        else ret tt) ;;

       p <- attr ppci ;;
       p <- not_None p ;;
       let makeYbus := _get_numba_functions p options in
       p <- attr ppci ;;
       p <- not_None p ;;
       let vars := _get_pf_variables_from_ppci p in
       assign (set_baseMVA (Some (pf_baseMVA vars))) ;;
       assign (set_bus (Some (pf_bus vars))) ;;
       assign (set_gen (Some (pf_gen vars))) ;;
       assign (set_branch (Some (pf_branch vars))) ;;
       assign (set_ref (Some (pf_ref vars))) ;;
       assign (set_pv (Some (pf_pv vars))) ;;
       assign (set_pq (Some (pf_pq vars))) ;;
       let V0 := pf_V0 vars in
       assign (set_ref_gens (Some (pf_ref_gens vars))) ;;
       p <- attr ppci ;;
       p <- not_None p ;;
       baseMVA_ <- attr baseMVA ;;
       baseMVA_ <- not_None baseMVA_ ;;
       bus_ <- attr bus ;;
       bus_ <- not_None bus_ ;;
       branch_ <- attr branch ;;
       branch_ <- not_None branch_ ;;
       let '(p', Ybus_, Yf_, Yt_) :=
         _get_Y_bus p options makeYbus baseMVA_ bus_ branch_ in
       assign (set_ppci (Some p')) ;;
       assign (set_Ybus (Some Ybus_)) ;;
       assign (set_Yf (Some Yf_)) ;;
       assign (set_Yt (Some Yt_)) ;;
       ret (Some V0)
     else
       (* TODO update self.ppci with new values of generation - load *)
       ret None) ;;

  (* compute complex bus power injections [generation - load] *)
  p <- attr ppci ;;
  p <- not_None p ;;
  let Sbus := _get_Sbus p in

  (* run the newton power flow *)
  let max_it := max_iteration options in
  let tol := tolerance_mva options in
  Y <- attr Ybus ;;
  Y <- not_None Y ;;
  assign (set_Ybus (Some (csc_matrix Y))) ;;

  (if need_reset then
     (* reset the solver *)
     s <- attr solver ;;
     on_solvers (reset s) ;;
     assign (set_V V0)
   else
     (* reuse previous voltages *)
     ret tt) ;;
  s <- attr solver ;;
  Y <- attr Ybus ;;
  Y <- not_None Y ;;
  V_ <- attr V ;;
  V_ <- not_None V_ ;;
  pv_ <- attr pv ;;
  pv_ <- not_None pv_ ;;
  pq_ <- attr pq ;;
  pq_ <- not_None pq_ ;;
  on_solvers (solve s Y V_ Sbus pv_ pq_ max_it tol) ;;

  s <- attr solver ;;
  Va <- on_solvers (get_Va s) ;;
  Vm <- on_solvers (get_Vm s) ;;
  assign (set_V (Some (np_mul Vm (np_exp_1j Va)))) ;;
  J <- on_solvers (get_J s) ;;
  success <- on_solvers (solver_converged s) ;;
  iterations <- on_solvers (get_nb_iter s) ;;
  timers <- on_solvers (get_timers s) ;;

  me <- attr (fun o => o) ;;
  p <- not_None (ppci me) ;;
  assign (set_ppci (Some (_store_internal p
    [("J", st_matrix (Some J)); ("Vm_it", st_None); ("Va_it", st_None);
     ("bus", st_array (bus me)); ("gen", st_array (gen me));
     ("branch", st_array (branch me));
     ("baseMVA", st_float (baseMVA me)); ("V", st_array (V me));
     ("pv", st_array (pv me)); ("pq", st_array (pq me));
     ("ref", st_array (ref me)); ("Sbus", st_array (Some Sbus));
     ("ref_gens", st_array (ref_gens me)); ("Ybus", st_matrix (Ybus me));
     ("Yf", st_matrix (Yf me)); ("Yt", st_matrix (Yt me));
     ("timers", st_timers timers); ("time_get_res", st_elapsed);
     ("time_solve", st_elapsed); ("time_init", st_elapsed);
     ("time_init_dc", st_elapsed); ("time_early_init", st_elapsed);
     ("time_options", st_elapsed)]%string))) ;;
  (* update data matrices with solution store in ppci *)
  p <- attr ppci ;;
  p <- not_None p ;;
  let '(bus_, gen_, branch_) := ppci_to_pfsoln p options in
  assign (set_bus (Some bus_)) ;;
  assign (set_gen (Some gen_)) ;;
  assign (set_branch (Some branch_)) ;;
  p <- attr ppci ;;
  p <- not_None p ;;
  let result_ :=
    _store_results_from_pf_in_ppci p bus_ gen_ branch_ success iterations in

  (* read the results (=ppci with results) to net *)
  ppci_to_net result_ ;;

  (* added *)
  p <- attr ppci ;;
  p <- not_None p ;;
  assign (set_ppci (Some (_store_internal p
    [("time_store_res", st_elapsed); ("time_to_net", st_elapsed);
     ("time_all", st_elapsed); ("time_ppci_to_pfsoln", st_elapsed)]%string))).

Definition runpp (max_iteration_ : Z) (need_reset : bool) (kwargs : Kwargs)
    : M Store unit :=
  options <- runpp_powerflow max_iteration_ need_reset kwargs ;;
  runpp_run_newton_raphson_pf need_reset options.

(** ** A functional description of the first part of [runpp]

    What lines 69-121 make of the net handed to the call. *)

(** The net as [_pd2ppc] receives it. *)
Definition net_before_conversion (max_iteration_ : Z) (need_reset : bool)
    (kwargs : Kwargs) (n : Net) : Net :=
  let passed := _passed_runpp_parameters n max_iteration_ need_reset kwargs in
  let n1 := _init_runpp_options n max_iteration_ passed kwargs in
  let n2 :=
    _add_auxiliary_elements (set_OPF_converged false (set_converged false n1)) in
  let n3 :=
    if negb (ac (_options n1)) || init_results (_options n1)
    then verify_results n2 else reset_results n2 in
  let n4 :=
    if negb (existsb (String.eqb (algorithm (_options n1))) ["nr"; "bfsw"]%string)
    then set_options (set_voltage_depend_loads false (_options n3)) n3
    else n3 in
  _add_auxiliary_elements n4.

(** The ppci converted from the net of this call. *)
Definition converted_ppci (max_iteration_ : Z) (need_reset : bool)
    (kwargs : Kwargs) (n : Net) : Ppci :=
  snd (_pd2ppc (net_before_conversion max_iteration_ need_reset kwargs n)).

(** The net after the conversion, with its [_ppc] entry. *)
Definition net_after_conversion (max_iteration_ : Z) (need_reset : bool)
    (kwargs : Kwargs) (n : Net) : Net :=
  let c := _pd2ppc (net_before_conversion max_iteration_ need_reset kwargs n) in
  set_ppc (snd (fst c)) (fst (fst c)).

(** The options of this call. *)
Definition options_of_call (max_iteration_ : Z) (need_reset : bool)
    (kwargs : Kwargs) (n : Net) : Options :=
  _options (net_after_conversion max_iteration_ need_reset kwargs n).


(** The solver object of [self]. *)
Definition solver_object (s : Store) : SolverObject :=
  deref (solver (self s)) (solvers s).

(** [self.solver] refers to a constructed solver object. *)
Definition solver_constructed (s : Store) : Prop :=
  solver (self s) < List.length (solvers s).

(** The net of the store replaced: what the caller does between two calls
    when it edits the net or passes another one. *)
Definition with_net (n : Net) (s : Store) : Store :=
  {| solvers := solvers s; self := self s; net := n |}.

(** ** Further vocabulary *)





End Driver.

(** ** An executable stand-in for the libraries

    A small deterministic implementation of the three interfaces, to run
    the driver on concrete inputs.  A net is reduced to one number, its
    load, and a ppci to that number and its success flag; the "solver" adds
    the injections to the initial voltages, reports zero angles, and
    converges in one iteration unless its iteration budget is zero. *)

Definition demo_types : PyTypes :=
  {| Array := list Z; Matrix := Z; Ppc := unit; Ppci := Z * bool; NetData := Z;
     Kwargs := unit; Passed := unit; OtherOptions := unit; MakeYbus := unit;
     Timers := unit |}.

Definition demo_set_max_iteration (m : Z) (o : @Options demo_types)
    : @Options demo_types :=
  @Build_Options demo_types (ac o) (init_results o) (algorithm o)
    (voltage_depend_loads o) (init_va_degree o) (enforce_q_lims o) m
    (tolerance_mva o) (other_options o).

Definition demo_pandapower : @Pandapower demo_types :=
  @Build_Pandapower demo_types
    (* _passed_runpp_parameters *) (fun _ _ _ _ => tt)
    (* _init_runpp_options *)
    (fun n m _ _ => set_options (demo_set_max_iteration m (_options n)) n)
    (* _add_auxiliary_elements *) (fun n => n)
    (* verify_results *) (fun n => n)
    (* reset_results *) (fun n => n)
    (* _pd2ppc *) (fun n => (n, tt, (net_data n, false)))
    (* _run_dc_pf *) (fun p => p)
    (* _get_numba_functions *) (fun _ _ => tt)
    (* _get_pf_variables_from_ppci *)
    (fun _ =>
       @Build_PfVariables demo_types 1%float [0; 1]%Z [0]%Z [0]%Z [0]%Z []
         [1]%Z [100; 100]%Z [0]%Z)
    (* _get_Y_bus *) (fun p _ _ _ _ _ => (p, 7, 7, 7)%Z)
    (* _get_Sbus *) (fun p => [fst p; - fst p]%Z)
    (* _store_internal *) (fun p _ => p)
    (* ppci_to_pfsoln *) (fun p _ => ([fst p], [], []))
    (* _store_results_from_pf_in_ppci *) (fun p _ _ _ success _ => (fst p, success))
    (* _ppci_to_net *)
    (fun r n =>
       (if snd r then Returns tt else Raises LoadflowNotConverged,
        if snd r then set_converged true n else n))
    (* csc_matrix *) (fun m => m)
    (* np_exp_1j *) (fun a => map (fun _ => 1%Z) a)
    (* np_mul *)
    (fun a b => map (fun xy => (fst xy * snd xy)%Z) (combine a b))
    (* _ppci_to_net_outcome *)
    (fun _ _ _ _ _ _ _ => eq_refl).

Definition demo_solver : @KLUSolverClass demo_types :=
  @Build_KLUSolverClass demo_types
    (* SolverState *) (list Z * Z)
    (* fresh_state *) ([], 0%Z)
    (* reset_state *) (fun _ => ([], 0%Z))
    (* solve_state *)
    (fun _ V Sbus _ _ max_it _ st =>
       (map (fun xy => (fst xy + snd xy)%Z) (combine V Sbus),
        if Z.ltb 0 max_it then 1%Z else 0%Z))
    (* Va_of *) (fun st => map (fun _ => 0%Z) (fst st))
    (* Vm_of *) (fun st => fst st)
    (* J_of *) (fun _ => 0%Z)
    (* converged_of *) (fun st => Z.ltb 0 (snd st))
    (* nb_iter_of *) (fun st => snd st)
    (* timers_of *) (fun _ => tt).

Definition demo_options (q_lims : bool) : @Options demo_types :=
  @Build_Options demo_types true false "nr" true (va_str "flat") q_lims 10
    0.5%float tt.

(** A net of load [load_mw], with or without the request to enforce the
    reactive limits among its options. *)
Definition demo_net (load_mw : Z) (q_lims : bool) : @Net demo_types :=
  @Build_Net demo_types (demo_options q_lims) false false None load_mw.

(** [KLU4Pandapower()] on an empty heap, before any [runpp]. *)
Definition demo_store (n : @Net demo_types)
    : @Store demo_types demo_solver :=
  match @KLU4Pandapower_init demo_types demo_solver [] with
  | (Returns obj, h) => {| solvers := h; self := obj; net := n |}
  | (Raises _, h) =>
      {| solvers := h;
         self := {| solver := 0; ppci := None; V := None; Ybus := None;
                    pv := None; pq := None; Yf := None; Yt := None;
                    bus := None; gen := None; branch := None; ref := None;
                    ref_gens := None; baseMVA := None |};
         net := n |}
  end.

(** The store after a first [runpp(net)] with the default [need_reset=True]
    on a net of load 5. *)
Definition demo_store_after_first_run : @Store demo_types demo_solver :=
  snd (@runpp demo_types demo_pandapower demo_solver 10 true tt
         (demo_store (demo_net 5 false))).

(** A [KLU4Pandapower] object as its constructor leaves it, with the solver
    object at position [r]. *)
Definition demo_object (r : nat) : @KLU4Pandapower demo_types :=
  {| solver := r; ppci := None; V := None; Ybus := None; pv := None;
     pq := None; Yf := None; Yt := None; bus := None; gen := None;
     branch := None; ref := None; ref_gens := None; baseMVA := None |}.

End Pyklu.


(* ================================================================= *)
(** * Facts about the numpy and pandas operations *)

Section ArrayFacts.

Lemma where_from_In (m : list bool) (start i : nat) :
  In i (np.where_from start m)
  <-> start <= i /\ nth_error m (i - start) = Some true.
Proof.
  revert start; induction m as [|b m IH]; intros start; simpl.
  - split; [tauto|]. intros [_ H]. destruct (i - start); discriminate.
  - assert (Hshift : start <= i /\ nth_error (b :: m) (i - start) = Some true
                     <-> (i = start /\ b = true)
                         \/ (S start <= i /\ nth_error m (i - S start) = Some true)).
    { destruct (Nat.eq_dec i start) as [->|Hne].
      - rewrite Nat.sub_diag; simpl. split.
        + intros [_ H]; left; split; congruence.
        + intros [[_ ->]|[H _]]; [auto | lia].
      - split.
        + intros [Hle H]. right. split; [lia|].
          replace (i - start) with (S (i - S start)) in H by lia. exact H.
        + intros [[H _]|[Hle H]]; [congruence|]. split; [lia|].
          replace (i - start) with (S (i - S start)) by lia. exact H. }
    rewrite Hshift. destruct b; simpl; rewrite IH; intuition congruence.
Qed.

Lemma where_In (m : list bool) (i : nat) :
  In i (np.where_ m) <-> nth_error m i = Some true.
Proof.
  unfold np.where_. rewrite where_from_In, Nat.sub_0_r.
  split; [tauto | intros H; split; [lia | exact H]].
Qed.

Lemma where_from_all_false (m : list bool) (start : nat) :
  Forall (fun b => b = false) m -> np.where_from start m = [].
Proof.
  intros H; revert start; induction H as [|b m -> _ IH]; intros start; simpl; auto.
Qed.

Lemma any_false_iff (m : list bool) :
  np.any m = false <-> Forall (fun b => b = false) m.
Proof.
  unfold np.any. induction m as [|b m IH]; simpl.
  - split; auto.
  - destruct b; simpl.
    + split; [discriminate | intros H; inversion H; discriminate].
    + rewrite IH. split; [auto | intros H; inversion H; auto].
Qed.

Lemma setitem_mask_all_false {A : Type} (a : list A) (m : list bool) (v : A) :
  Forall (fun b => b = false) m -> np.setitem_mask a m v = a.
Proof.
  intros H; revert a; induction H as [|b m -> _ IH]; intros [|x a]; simpl;
    try reflexivity.
  now rewrite IH.
Qed.

Lemma setitem_mask_map {A B : Type} (f : A -> B) (c : A -> bool) (v : B)
    (rows : list A) :
  np.setitem_mask (map f rows) (map c rows) v
  = map (fun r => if c r then v else f r) rows.
Proof.
  induction rows as [|r rows IH]; simpl; [reflexivity | now rewrite IH].
Qed.

(** Masking the non-finite entries of a column with zero. *)
Lemma setitem_not_finite {A : Type} (f : A -> float) (rows : list A) :
  np.setitem_mask (map f rows) (np.invert (np.isfinite (map f rows))) 0%float
  = map (fun r => InitGridModel.zero_if_not_finite (f r)) rows.
Proof.
  unfold np.invert, np.isfinite. rewrite !map_map, setitem_mask_map.
  apply map_ext; intros r. unfold InitGridModel.zero_if_not_finite.
  now destruct (is_finite (f r)).
Qed.

Lemma zero_if_not_finite_is_finite (x : float) :
  is_finite (InitGridModel.zero_if_not_finite x) = true.
Proof.
  unfold InitGridModel.zero_if_not_finite.
  destruct (is_finite x) eqn:E; [exact E | reflexivity].
Qed.

(** Once repaired, a column has no non-finite entry left. *)
Lemma repaired_mask_all_false {A : Type} (f : A -> float) (rows : list A) :
  Forall (fun b => b = false)
    (np.invert (np.isfinite
       (map (fun r => InitGridModel.zero_if_not_finite (f r)) rows))).
Proof.
  unfold np.invert, np.isfinite. rewrite !map_map.
  apply Forall_forall; intros b Hb. apply in_map_iff in Hb as [r [<- _]].
  now rewrite zero_if_not_finite_is_finite.
Qed.

Lemma argsort_insert_snd (k : Z) (p : nat) (acc : list (Z * nat)) (Q : nat -> Prop) :
  Q p -> Forall (fun kp => Q (snd kp)) acc ->
  Forall (fun kp => Q (snd kp)) (np.argsort_insert k p acc).
Proof.
  intros Hp; induction 1 as [|[k' p'] acc Hhd Htl IH]; simpl.
  - constructor; auto.
  - destruct (Z.leb k k'); repeat constructor; auto.
Qed.

Lemma argsort_from_bound (keys : list Z) (start : nat) :
  Forall (fun kp => start <= snd kp < start + List.length keys)
    (np.argsort_from start keys).
Proof.
  revert start; induction keys as [|k keys IH]; intros start; simpl.
  - constructor.
  - apply (argsort_insert_snd k start _
             (fun p => start <= p < start + S (List.length keys))); [lia|].
    eapply Forall_impl; [|apply (IH (S start))]. simpl; intros; lia.
Qed.

Lemma argsort_bound (keys : list Z) :
  Forall (fun p => p < List.length keys) (np.argsort keys).
Proof.
  unfold np.argsort. apply Forall_map.
  eapply Forall_impl; [|apply (argsort_from_bound keys 0)]. simpl; intros; lia.
Qed.

Lemma iloc_in_range {Row : Type} (rows : list Row) (positions : list nat) :
  Forall (fun p => p < List.length rows) positions ->
  pd.iloc rows positions = Returns (InitGridModel.take_rows rows positions).
Proof.
  unfold InitGridModel.take_rows.
  induction 1 as [|p ps Hp _ IH]; simpl; [reflexivity|].
  destruct (nth_error rows p) as [r|] eqn:E.
  - now rewrite IH.
  - apply nth_error_None in E. lia.
Qed.

Lemma rows_at_nil {Row : Type} (index : Row -> Z) (rows : list Row) (l : Z) :
  pd.rows_at index rows l = [] <-> InitGridModel.has_label index rows l = false.
Proof.
  unfold pd.rows_at, InitGridModel.has_label.
  induction rows as [|r rows IH]; simpl; [tauto|].
  destruct (Z.eqb (index r) l); simpl; [split; discriminate | exact IH].
Qed.

(** [frame.loc[labels]] returns the rows of the labels when every label is
    in the index, and raises [KeyError] otherwise. *)
Lemma loc_spec {Row : Type} (index : Row -> Z) (rows : list Row) (labels : list Z) :
  pd.loc index rows labels
  = if forallb (InitGridModel.has_label index rows) labels
    then Returns (flat_map (pd.rows_at index rows) labels)
    else Raises KeyError.
Proof.
  induction labels as [|l labels IH]; simpl; [reflexivity|].
  destruct (pd.rows_at index rows l) as [|r found] eqn:E.
  - apply rows_at_nil in E. now rewrite E.
  - destruct (InitGridModel.has_label index rows l) eqn:H.
    + simpl. rewrite IH. now destruct (forallb _ labels).
    + apply rows_at_nil in H. congruence.
Qed.

(** ** [np.sum] *)

(** Where a column of more than 128 entries is cut. *)
Lemma pairwise_cut (n : nat) :
  128 < n -> 0 < n / 2 - (n / 2) mod 8 < n.
Proof.
  intros H.
  pose proof (Nat.div_mod_eq n 2) as Hn.
  pose proof (Nat.mod_upper_bound n 2) as Hm.
  pose proof (Nat.mod_upper_bound (n / 2) 8) as Hr.
  lia.
Qed.

(** The halving of [pairwise_sum] ends before its depth runs out: any two
    depths of at least the length of the column give the same sum. *)
Lemma pairwise_sum_depth (d1 d2 : nat) (a : list float) :
  List.length a <= d1 -> List.length a <= d2 ->
  np.pairwise_sum d1 a = np.pairwise_sum d2 a.
Proof.
  revert d2 a; induction d1 as [|d1 IH]; intros d2 a H1 H2.
  - destruct a; [|simpl in H1; lia]. destruct d2; reflexivity.
  - destruct d2 as [|d2].
    + destruct a; [reflexivity | simpl in H2; lia].
    + cbn [np.pairwise_sum].
      destruct (Nat.ltb (List.length a) 8) eqn:E8; [reflexivity|].
      destruct (Nat.leb (List.length a) 128) eqn:E128; [reflexivity|].
      apply Nat.leb_gt in E128.
      pose proof (pairwise_cut _ E128) as Hcut.
      f_equal; apply IH; rewrite ?length_firstn, ?length_skipn; lia.
Qed.

Lemma fillna_zero_idem (s : list float) :
  np.fillna_zero (np.fillna_zero s) = np.fillna_zero s.
Proof.
  unfold np.fillna_zero. rewrite map_map. apply map_ext. intros x.
  destruct (is_nan x) eqn:E; [reflexivity | now rewrite E].
Qed.

(** A NaN entry counts as zero in [np.sum] of a pandas column. *)
Lemma sum_fillna (s : list float) : np.sum (np.fillna_zero s) = np.sum s.
Proof.
  unfold np.sum. rewrite fillna_zero_idem. unfold np.fillna_zero at 1.
  now rewrite length_map.
Qed.

(** Fewer than 8 entries are added in column order. *)
Lemma sum_short (s : list float) :
  List.length s < 8 ->
  np.sum s = (0 + fold_left PrimFloat.add (np.fillna_zero s) 0)%float.
Proof.
  intros H. unfold np.sum.
  assert (E : Nat.ltb (List.length (np.fillna_zero s)) 8 = true).
  { apply Nat.ltb_lt. unfold np.fillna_zero. now rewrite length_map. }
  destruct (List.length s); cbn [np.pairwise_sum]; now rewrite E.
Qed.

(** From 8 entries on the order of the additions differs from column
    order, and so can the sum: ten entries of one tenth sum to [1.0], where
    adding them in column order gives a smaller value. *)
Lemma sum_of_ten_tenths :
  np.sum (repeat (1 / 10)%float 10) = 1%float
  /\ fold_left PrimFloat.add (repeat (1 / 10)%float 10) 0%float <> 1%float.
Proof. split; [reflexivity | discriminate]. Qed.

(** The three branches of the pairwise sum on columns of 20, 128, 129 and
    300 entries whose first entry is [2^53] and whose other entries are 1:
    added in column order every 1 would be lost to rounding. *)
Lemma sum_order_examples :
  np.sum (9007199254740992%float :: repeat 1%float 19)
  = 9007199254741008%float
  /\ np.sum (9007199254740992%float :: repeat 1%float 127)
     = 9007199254741104%float
  /\ np.sum (9007199254740992%float :: repeat 1%float 128)
     = 9007199254741112%float
  /\ np.sum (9007199254740992%float :: repeat 1%float 299)
     = 9007199254741282%float
  /\ fold_left PrimFloat.add (9007199254740992%float :: repeat 1%float 19)
       0%float
     = 9007199254740992%float.
Proof. repeat split; vm_compute; reflexivity. Qed.

(** NaN entries are skipped, infinite ones are not. *)
Lemma sum_skips_nan :
  np.sum [nan; 1.5%float; nan; 2%float] = 3.5%float
  /\ np.sum [nan; 1.5%float; infinity] = infinity
  /\ np.sum [] = 0%float.
Proof. repeat split; reflexivity. Qed.

(** Equal keys keep their row order in [np.argsort]. *)
Lemma argsort_ties : np.argsort [0; 1; 1; 0]%Z = [0; 3; 1; 2].
Proof. reflexivity. Qed.

End ArrayFacts.


(* ================================================================= *)
(** * [init] and its functional description *)

Section InitFacts.
Import InitGridModel.

Lemma bind_call {B : Type} (c : Call) (k : unit -> M GridModel B)
    (model : GridModel) :
  bind (call c) k model = k tt (model ++ [c]).
Proof. reflexivity. Qed.

Lemma bind_lift_Returns {St A B : Type} (a : A) (k : A -> M St B) (s : St) :
  bind (lift (Returns a)) k s = k a s.
Proof. reflexivity. Qed.

Lemma bind_lift_Raises {St A B : Type} (e : exn) (k : A -> M St B) (s : St) :
  bind (lift (@Raises A e)) k s = (Raises e, s).
Proof. reflexivity. Qed.

(** One of the five deactivation loops, run from any model. *)
Lemma for_enumerate_deactivate (deactivate : nat -> Call)
    (in_service : list bool) (start : nat) (model : GridModel) :
  for_enumerate_from start in_service
    (fun elt_id sh_status =>
       if negb sh_status then call (deactivate elt_id) else ret tt) model
  = (Returns tt,
     model ++ map deactivate (np.where_from start (np.invert in_service))).
Proof.
  revert start model; induction in_service as [|b l IH]; intros start model.
  - simpl. now rewrite app_nil_r.
  - simpl. unfold bind at 1. destruct b; simpl.
    + apply IH.
    + rewrite IH. now rewrite <- app_assoc.
Qed.

Lemma bind_deactivate {B : Type} (in_service : list bool)
    (deactivate : nat -> Call) (k : unit -> M GridModel B) (model : GridModel) :
  bind (deactivate_out_of_service in_service deactivate) k model
  = k tt (model ++ map deactivate (out_of_service in_service)).
Proof.
  unfold bind at 1, deactivate_out_of_service, for_enumerate.
  now rewrite for_enumerate_deactivate.
Qed.

Lemma iloc_argsort (rows : list BusRow) :
  pd.iloc rows (np.argsort (map bus_index rows))
  = Returns (take_rows rows (np.argsort (map bus_index rows))).
Proof.
  apply iloc_in_range. rewrite <- (length_map bus_index). apply argsort_bound.
Qed.

Lemma bind_put {St B : Type} (s' : St) (k : unit -> M St B) (s : St) :
  bind (put s') k s = k tt s'.
Proof. reflexivity. Qed.

Lemma bind_ret {St A B : Type} (a : A) (k : A -> M St B) (s : St) :
  bind (ret a) k s = k a s.
Proof. reflexivity. Qed.

Lemma bind_bind {St A B C : Type} (m : M St A) (f : A -> M St B)
    (k : B -> M St C) (s : St) :
  bind (bind m f) k s = bind m (fun a => bind (f a) k) s.
Proof. unfold bind. now destruct (m s) as [[a|e] s']. Qed.

(** One statement of a straight-line block. *)
Ltac py_step :=
  first [ rewrite bind_bind
        | rewrite bind_call
        | rewrite bind_deactivate
        | rewrite bind_put
        | rewrite bind_ret
        | rewrite bind_lift_Returns
        | rewrite bind_lift_Raises ];
  cbv beta.

(** Both sides of an equation between call lists, as one right-nested list. *)
Ltac flatten_calls :=
  unfold element_calls, all_tables, table_calls, GridModel_new;
  cbn [flat_map initialisation deactivation in_service_flags];
  repeat (rewrite <- app_assoc || rewrite <- app_comm_cons || rewrite app_nil_r);
  cbn [app].

(** [init] makes exactly the lookups and the calls of [init_spec]. *)
Lemma init_refines (pp_net : PPNet) : init pp_net = init_spec pp_net.
Proof.
  unfold init, init_spec, init_body, bus_labels_found.
  rewrite !loc_spec, iloc_argsort.
  destruct (forallb _ (map from_bus _)); [|reflexivity].
  destruct (forallb _ (map to_bus _)); [|reflexivity].
  destruct (forallb _ (map lv_bus _)); [|reflexivity].
  rewrite !setitem_not_finite.
  rewrite (setitem_mask_all_false _ _ _ (repaired_mask_all_false tap_pos _)).
  cbn [andb get_line_param get_trafo_param].
  repeat py_step.
  unfold slack_calls.
  destruct (np.any (map slack (gen pp_net))).
  - repeat py_step.
    destruct (forallb _ (map Z.of_nat _)).
    + repeat py_step. unfold get. cbn [fst]. f_equal. flatten_calls. reflexivity.
    + now py_step.
  - repeat py_step.
    destruct (ext_grid pp_net) as [|e rest]; cbn [map np.item0].
    + now py_step.
    + repeat py_step.
      destruct (np.any (np.eq (map gen_bus (gen pp_net)) (ext_grid_bus e))).
      * repeat py_step. unfold get. cbn [fst]. f_equal. flatten_calls. reflexivity.
      * repeat py_step. unfold get. cbn [fst]. f_equal. flatten_calls. reflexivity.
Qed.

(** ** When [init] returns *)

Lemma slack_calls_found (pp_net : PPNet) :
  slack_found pp_net = true -> exists cs, slack_calls pp_net = Returns cs.
Proof.
  unfold slack_found, slack_calls. destruct (np.any (map slack _)).
  - intros ->. eauto.
  - destruct (ext_grid pp_net) as [|e rest]; [discriminate|]. intros _.
    destruct (np.any _); eauto.
Qed.

Lemma slack_calls_not_found (pp_net : PPNet) :
  slack_found pp_net = false -> exists e, slack_calls pp_net = Raises e.
Proof.
  unfold slack_found, slack_calls. destruct (np.any (map slack _)).
  - intros ->. eauto.
  - destruct (ext_grid pp_net) as [|e rest]; [eauto | discriminate].
Qed.

Lemma init_accepted (pp_net : PPNet) :
  accepted pp_net = true ->
  exists cs,
    slack_calls pp_net = Returns cs
    /\ init pp_net = Returns (element_calls pp_net ++ cs).
Proof.
  unfold accepted. intros H. apply andb_prop in H as [Hbus Hslack].
  destruct (slack_calls_found _ Hslack) as [cs Hcs]. exists cs. split; [exact Hcs|].
  rewrite init_refines. unfold init_spec. now rewrite Hbus, Hcs.
Qed.

Lemma init_rejected (pp_net : PPNet) :
  accepted pp_net = false -> exists e, init pp_net = Raises e.
Proof.
  unfold accepted. rewrite init_refines. unfold init_spec.
  destruct (bus_labels_found pp_net); cbn [andb]; [|eauto].
  intros H. destruct (slack_calls_not_found _ H) as [e ->]. eauto.
Qed.

(** ** Which calls a model built by [init] contains *)

Lemma deactivation_inj (t t' : Table) (i j : nat) :
  deactivation t i = deactivation t' j -> t = t' /\ i = j.
Proof. destruct t, t'; cbn; intros H; inversion H; auto. Qed.

Lemma deactivation_not_initialisation (t t' : Table) (i : nat) (pp_net : PPNet) :
  deactivation t i <> initialisation t' pp_net.
Proof. destruct t, t'; discriminate. Qed.

Lemma out_of_service_In (in_service : list bool) (i : nat) :
  In i (out_of_service in_service) <-> nth_error in_service i = Some false.
Proof.
  unfold out_of_service, np.invert. rewrite where_In, nth_error_map.
  destruct (nth_error in_service i) as [[|]|]; cbn; split; congruence.
Qed.

Lemma table_calls_In (pp_net : PPNet) (t : Table) (c : Call) :
  In c (table_calls pp_net t)
  <-> c = initialisation t pp_net
      \/ exists i, c = deactivation t i
                   /\ nth_error (in_service_flags t pp_net) i = Some false.
Proof.
  unfold table_calls. cbn [In]. rewrite in_map_iff. split.
  - intros [H|[i [H Hi]]]; [left; auto | right].
    exists i. split; [auto | now apply out_of_service_In].
  - intros [H|[i [H Hi]]]; [left; auto | right].
    exists i. split; [auto | now apply out_of_service_In].
Qed.

Lemma slack_calls_In (pp_net : PPNet) (cs : list Call) (c : Call) :
  slack_calls pp_net = Returns cs -> In c cs ->
  (exists g v, c = change_v_gen g v)
  \/ (exists g, c = add_gen_slackbus g)
  \/ (exists e rest, ext_grid pp_net = e :: rest
                     /\ c = synthetic_generators_call pp_net e).
Proof.
  unfold slack_calls. destruct (np.any (map slack _)).
  - destruct (forallb _ _); [|discriminate]. intros [= <-] [<-|[<-|[]]]; eauto.
  - destruct (ext_grid pp_net) as [|e rest]; [discriminate|].
    destruct (np.any _); intros [= <-]; cbn [In].
    + intros [<-|[]]; eauto.
    + intros [<-|[<-|[]]]; eauto 6.
Qed.

Lemma slack_calls_no_deactivation (pp_net : PPNet) (cs : list Call)
    (t : Table) (i : nat) :
  slack_calls pp_net = Returns cs -> ~ In (deactivation t i) cs.
Proof.
  intros Hcs Hin.
  destruct (slack_calls_In _ _ _ Hcs Hin)
    as [[g [v H]]|[[g H]|[e [rest [_ H]]]]]; destruct t; discriminate.
Qed.

(** Every table is handled once, after the tables listed before it. *)
Lemma all_tables_split (t : Table) :
  exists l1 l2, all_tables = l1 ++ t :: l2 /\ ~ In t l1.
Proof.
  unfold all_tables. destruct t.
  - exists [], [shunts; trafos; loads; generators]. split; [reflexivity | intros []].
  - exists [powerlines], [trafos; loads; generators].
    split; [reflexivity | cbn; intuition discriminate].
  - exists [powerlines; shunts], [loads; generators].
    split; [reflexivity | cbn; intuition discriminate].
  - exists [powerlines; shunts; trafos], [generators].
    split; [reflexivity | cbn; intuition discriminate].
  - exists [powerlines; shunts; trafos; loads], [].
    split; [reflexivity | cbn; intuition discriminate].
Qed.

Lemma all_tables_In (t : Table) : In t all_tables.
Proof. unfold all_tables. destruct t; cbn; auto 6. Qed.

(** The shape of a model around the initialisation of one table. *)
Lemma model_around_table (pp_net : PPNet) (cs : list Call) (t : Table) :
  slack_calls pp_net = Returns cs ->
  initialised_then_deactivated (element_calls pp_net ++ cs)
    (initialisation t pp_net) (deactivation t) (in_service_flags t pp_net).
Proof.
  intros Hcs. split.
  - destruct (all_tables_split t) as [l1 [l2 [Hsplit Hfresh]]].
    exists (bus_call pp_net :: flat_map (table_calls pp_net) l1).
    exists (map (deactivation t) (out_of_service (in_service_flags t pp_net))
            ++ flat_map (table_calls pp_net) l2 ++ cs).
    split.
    + unfold element_calls. rewrite Hsplit, flat_map_app. cbn [flat_map].
      unfold table_calls at 2.
      now rewrite <- !app_comm_cons, <- !app_assoc, <- !app_comm_cons, <- !app_assoc.
    + intros i [H|H]; [destruct t; discriminate|].
      apply in_flat_map in H as [t' [Ht' H]].
      apply table_calls_In in H as [H|[j [H _]]].
      * now apply deactivation_not_initialisation in H.
      * apply deactivation_inj in H as [-> _]. contradiction.
  - intros i. split.
    + intros H. apply in_app_or in H as [H|H].
      * destruct H as [H|H]; [destruct t; discriminate|].
        apply in_flat_map in H as [t' [_ H]].
        apply table_calls_In in H as [H|[j [H Hj]]].
        -- now apply deactivation_not_initialisation in H.
        -- apply deactivation_inj in H as [-> ->]. exact Hj.
      * now apply slack_calls_no_deactivation with (t := t) (i := i) in Hcs.
    + intros H. apply in_or_app. left. right.
      apply in_flat_map. exists t. split; [apply all_tables_In|].
      apply table_calls_In. right. eauto.
Qed.

(** The initialisation calls do not read the [in_service] flags. *)
Lemma initialisation_ignores_in_service (t : Table) (pp_net : PPNet) :
  initialisation t (all_in_service pp_net) = initialisation t pp_net.
Proof.
  destruct t;
    unfold initialisation, powerlines_call, shunt_call, trafo_call, loads_call,
      generators_call, line_param_call, trafo_param_call, vn_kv_at,
      converter_of, all_in_service;
    cbn [sn_mva f_hz bus line trafo shunt load gen ext_grid];
    rewrite ?map_map; reflexivity.
Qed.

Lemma initialisation_elements (t : Table) (pp_net : PPNet) :
  elements_of (initialisation t pp_net)
  = List.length (in_service_flags t pp_net).
Proof. destruct t; cbn; now rewrite !length_map. Qed.

Lemma element_calls_In (pp_net : PPNet) (c : Call) :
  In c (element_calls pp_net) ->
  c = bus_call pp_net
  \/ (exists t, c = initialisation t pp_net)
  \/ (exists t i, c = deactivation t i).
Proof.
  intros [H|H]; [auto|].
  apply in_flat_map in H as [t [_ H]].
  apply table_calls_In in H as [H|[i [H _]]]; eauto.
Qed.

Lemma element_calls_no_slack (pp_net : PPNet) :
  Forall (fun c => is_slack_registration c = false) (element_calls pp_net).
Proof.
  apply Forall_forall. intros c H.
  apply element_calls_In in H as [->|[[t ->]|[t [i ->]]]];
    [reflexivity | destruct t; reflexivity | destruct t; reflexivity].
Qed.

(** The only [init_trafo] call of a model is the one of [trafo_call]. *)
Lemma model_init_trafo (pp_net : PPNet) (cs : list Call) (c : Call) :
  slack_calls pp_net = Returns cs ->
  In c (element_calls pp_net ++ cs) ->
  (exists r x b ts tp side hv lv, c = init_trafo r x b ts tp side hv lv) ->
  c = trafo_call pp_net.
Proof.
  intros Hcs Hin [r [x [b [ts [tp [side [hv [lv ->]]]]]]]].
  apply in_app_or in Hin as [H|H].
  - apply element_calls_In in H as [H|[[t H]|[t [i H]]]].
    + discriminate.
    + destruct t; try discriminate. exact H.
    + destruct t; discriminate.
  - destruct (slack_calls_In _ _ _ Hcs H)
      as [[g [v H']]|[[g H']|[e [rest [_ H']]]]]; discriminate.
Qed.

Lemma trafo_call_In (pp_net : PPNet) (cs : list Call) :
  In (trafo_call pp_net) (element_calls pp_net ++ cs).
Proof.
  apply in_or_app. left. right. apply in_flat_map. exists trafos.
  split; [apply all_tables_In | now left].
Qed.

Lemma initialisation_In (pp_net : PPNet) (cs : list Call) (t : Table) :
  In (initialisation t pp_net) (element_calls pp_net ++ cs).
Proof.
  apply in_or_app. left. right. apply in_flat_map. exists t.
  split; [apply all_tables_In | now left].
Qed.

(* ================================================================= *)
(** * The claims about [init] *)

(** C1 (as stated) fails: the bus lookups of lines 59-70 come before the
    choice of the slack.  In [missing_bus_net] no generator is flagged as
    slack and none sits on the bus of the first [ext_grid] row, but the line
    starts at a bus that is not in the bus table: [init] raises [KeyError]
    and fabricates no generator. *)
Lemma C1_missing_bus_raises_before_slack_choice :
  forallb (fun g => negb (slack g)) (gen missing_bus_net) = true
  /\ (exists e rest,
        ext_grid missing_bus_net = e :: rest
        /\ forallb (fun g => negb (Z.eqb (gen_bus g) (ext_grid_bus e)))
             (gen missing_bus_net) = true)
  /\ init missing_bus_net = Raises KeyError.
Proof.
  split; [reflexivity|]. split; [|reflexivity].
  eexists _, _. split; reflexivity.
Qed.

(** C1 (as the code behaves).  When the bus lookups succeed, no generator is
    flagged as slack and no generator sits on the bus of the first
    [ext_grid] row, [init] ends by initialising the generators again, the
    declared ones followed by one synthetic generator at that bus, with
    active power [np.sum(load.p_mw) - np.sum(gen.p_mw)], the voltage
    setpoint of the [ext_grid] row and reactive limits [-999999] and
    [+99999], and then registers the position of that appended generator as
    the slack; nothing before registers a slack. *)
Theorem C1_synthetic_slack_generator (pp_net : PPNet) (e : ExtGridRow)
    (rest : list ExtGridRow) :
  bus_labels_found pp_net = true ->
  Forall (fun g => slack g = false) (gen pp_net) ->
  ext_grid pp_net = e :: rest ->
  Forall (fun g => gen_bus g <> ext_grid_bus e) (gen pp_net) ->
  exists earlier,
    init pp_net
    = Returns
        (earlier
         ++ [init_generators
               (map gen_p_mw (gen pp_net)
                  ++ [(np.sum (map load_p_mw (load pp_net))
                       - np.sum (map gen_p_mw (gen pp_net)))%float])
               (map gen_vm_pu (gen pp_net) ++ [ext_grid_vm_pu e])
               (map min_q_mvar (gen pp_net) ++ [(-999999)%float])
               (map max_q_mvar (gen pp_net) ++ [99999%float])
               (map gen_bus (gen pp_net) ++ [ext_grid_bus e]);
             add_gen_slackbus (id_int (List.length (gen pp_net)))])
    /\ Forall (fun c => is_slack_registration c = false) earlier.
Proof.
  intros Hbus Hflag Hext Hon.
  exists (element_calls pp_net). split; [|apply element_calls_no_slack].
  rewrite init_refines. unfold init_spec, slack_calls. rewrite Hbus, Hext.
  assert (Hany : np.any (map slack (gen pp_net)) = false).
  { apply any_false_iff, Forall_map. exact Hflag. }
  assert (Hnone : np.any (np.eq (map gen_bus (gen pp_net)) (ext_grid_bus e))
                  = false).
  { apply any_false_iff. unfold np.eq. apply Forall_map, Forall_map.
    eapply Forall_impl; [|exact Hon]. intros g Hg. now apply Z.eqb_neq. }
  now rewrite Hany, Hnone.
Qed.

(** On [ten_loads_net] the ten loads of one tenth sum to [1.0], as numpy
    adds them, and the synthetic generator gets [1.0 - 0.25]. *)
Lemma C1_witness :
  exists earlier,
    init ten_loads_net
    = Returns
        (earlier
         ++ [init_generators [0.25%float; 0.75%float] [1.5%float; 1.25%float]
               [(-3)%float; (-999999)%float] [3%float; 99999%float]
               [1%Z; 0%Z];
             add_gen_slackbus (id_int 1)])
    /\ Forall (fun c => is_slack_registration c = false) earlier.
Proof.
  assert (Hflag : Forall (fun g => slack g = false) (gen ten_loads_net)).
  { repeat constructor. }
  assert (Hon : Forall (fun g => gen_bus g <> 0%Z) (gen ten_loads_net)).
  { repeat constructor. discriminate. }
  exact (C1_synthetic_slack_generator ten_loads_net
           {| ext_grid_bus := 0; ext_grid_vm_pu := 1.25%float |} []
           eq_refl Hflag eq_refl Hon).
Defined.

(** C3 (as the code behaves).  [init] validates nothing itself: it raises
    exactly when one of its pandas lookups fails, with [KeyError] or
    [IndexError], and returns a model in every other case, whatever the
    values. *)
Theorem C3_init_raises_iff_lookup_fails (pp_net : PPNet) :
  ((exists e, init pp_net = Raises e) <-> accepted pp_net = false)
  /\ ((exists model, init pp_net = Returns model) <-> accepted pp_net = true)
  /\ (forall e, init pp_net = Raises e -> e = KeyError \/ e = IndexError).
Proof.
  repeat split.
  - intros [e He]. destruct (accepted pp_net) eqn:Hacc; [|reflexivity].
    destruct (init_accepted _ Hacc) as [cs [_ H]]. congruence.
  - apply init_rejected.
  - intros [model Hm]. destruct (accepted pp_net) eqn:Hacc; [reflexivity|].
    destruct (init_rejected _ Hacc) as [e H]. congruence.
  - intros Hacc. destruct (init_accepted _ Hacc) as [cs [_ H]]. eauto.
  - intros e. rewrite init_refines. unfold init_spec, slack_calls.
    destruct (bus_labels_found pp_net); [|intros [= <-]; auto].
    destruct (np.any (map slack _)).
    + destruct (forallb _ _); [discriminate | intros [= <-]; auto].
    + destruct (ext_grid pp_net); [intros [= <-]; auto|].
      destruct (np.any _); discriminate.
Qed.

(** C3 (as stated) fails: a network with a NaN load, an infinite line
    resistance and a transformer on a bus that does not exist is malformed
    on both counts, and [init] returns a model for it. *)
Lemma C3_malformed_network_is_built :
  has_non_finite_value malformed_net = true
  /\ branch_on_missing_bus malformed_net = true
  /\ malformed malformed_net = true
  /\ exists model, init malformed_net = Returns model.
Proof.
  repeat split; try reflexivity.
  destruct (init_accepted malformed_net eq_refl) as [cs [_ H]]. eauto.
Qed.

(** C4 (as stated) fails: the zeroing of the tap columns is not the only
    place where [init] puts zero for a value that is not a number.  In
    [nan_load_net] the first load has a NaN [p_mw]; added up as they are the
    load powers give NaN, but the synthetic slack generator gets the finite
    active power [(0.0 + 5.5) - 6.0]: [np.sum] on a pandas column counts the
    NaN as zero. *)
Lemma C4_nan_power_counts_as_zero :
  map (fun l => is_nan (load_p_mw l)) (load nan_load_net) = [true; false]
  /\ is_nan (fold_left PrimFloat.add (map load_p_mw (load nan_load_net))
               0%float) = true
  /\ exists earlier,
       init nan_load_net
       = Returns
           (earlier
            ++ [init_generators [6%float; (-0.5)%float]
                  [1.5%float; 1.25%float] [(-3)%float; (-999999)%float]
                  [3%float; 99999%float] [1%Z; 0%Z];
                add_gen_slackbus (id_int 1)]).
Proof.
  split; [reflexivity|]. split; [reflexivity|].
  exists (element_calls nan_load_net). reflexivity.
Qed.

(** C4 (as the code behaves).  Every call [init] makes on the model, with
    every argument.  [init_trafo] receives the [tap_step_percent] and
    [tap_pos] columns with every non-finite entry replaced by [0.0] and
    every finite entry as it is, and [tap_side == "hv"] as it is.  Every
    other column reaches its call unchanged: the bus voltages in the order
    of the bus index labels, the line and transformer parameters through the
    converter (the line ones multiplied by [length_km]), the bus voltages of
    the branch ends looked up by label.  The one other substitution is in
    the active power of the synthetic slack generator, whose two sums count
    a NaN [p_mw] as zero. *)
Theorem C4_what_init_forwards (pp_net : PPNet) :
  accepted pp_net = true ->
  let converter :=
    {| conv_sn_mva := Some (sn_mva pp_net); conv_f_hz := Some (f_hz pp_net) |} in
  let vn_kv_of_buses labels :=
    map bus_vn_kv (flat_map (pd.rows_at bus_index (bus pp_net)) labels) in
  let lines :=
    {| lp_converter := converter;
       lp_r := map (fun l => r_ohm_per_km l * length_km l)%float (line pp_net);
       lp_x := map (fun l => x_ohm_per_km l * length_km l)%float (line pp_net);
       lp_c := map (fun l => c_nf_per_km l * length_km l)%float (line pp_net);
       lp_g := map (fun l => g_us_per_km l * length_km l)%float (line pp_net);
       lp_vn_from := vn_kv_of_buses (map from_bus (line pp_net));
       lp_vn_to := vn_kv_of_buses (map to_bus (line pp_net)) |} in
  let trafos_ :=
    {| tp_converter := converter;
       tp_vn_hv_kv := map vn_hv_kv (trafo pp_net);
       tp_vn_lv_kv := map vn_lv_kv (trafo pp_net);
       tp_vk_percent := map vk_percent (trafo pp_net);
       tp_vkr_percent := map vkr_percent (trafo pp_net);
       tp_sn_mva := map trafo_sn_mva (trafo pp_net);
       tp_pfe_kw := map pfe_kw (trafo pp_net);
       tp_i0_percent := map i0_percent (trafo pp_net);
       tp_vn_lv_bus := vn_kv_of_buses (map lv_bus (trafo pp_net)) |} in
  let switched_off in_service := np.where_ (map negb in_service) in
  let flagged := np.where_ (map slack (gen pp_net)) in
  exists slack_part,
    init pp_net
    = Returns
        ([init_bus
            (map bus_vn_kv
               (take_rows (bus pp_net)
                  (np.argsort (map bus_index (bus pp_net)))))
            (List.length (line pp_net)) (List.length (trafo pp_net));
          init_powerlines (line_r_of lines) (line_x_of lines) (line_h_of lines)
            (map from_bus (line pp_net)) (map to_bus (line pp_net))]
         ++ map deactivate_powerline
              (switched_off (map line_in_service (line pp_net)))
         ++ [init_shunt (map shunt_p_mw (shunt pp_net))
               (map shunt_q_mvar (shunt pp_net)) (map shunt_bus (shunt pp_net))]
         ++ map deactivate_shunt
              (switched_off (map shunt_in_service (shunt pp_net)))
         ++ [init_trafo (trafo_r_of trafos_) (trafo_x_of trafos_)
               (trafo_b_of trafos_)
               (map (fun t => if is_finite (tap_step_percent t)
                              then tap_step_percent t else 0%float)
                  (trafo pp_net))
               (map (fun t => if is_finite (tap_pos t)
                              then tap_pos t else 0%float) (trafo pp_net))
               (map (fun t => is_hv (tap_side t)) (trafo pp_net))
               (map hv_bus (trafo pp_net)) (map lv_bus (trafo pp_net))]
         ++ map deactivate_trafo
              (switched_off (map trafo_in_service (trafo pp_net)))
         ++ [init_loads (map load_p_mw (load pp_net))
               (map load_q_mvar (load pp_net)) (map load_bus (load pp_net))]
         ++ map deactivate_load
              (switched_off (map load_in_service (load pp_net)))
         ++ [init_generators (map gen_p_mw (gen pp_net))
               (map gen_vm_pu (gen pp_net)) (map min_q_mvar (gen pp_net))
               (map max_q_mvar (gen pp_net)) (map gen_bus (gen pp_net))]
         ++ map deactivate_gen
              (switched_off (map gen_in_service (gen pp_net)))
         ++ slack_part)
    /\ (slack_part
        = [change_v_gen (id_array flagged)
             (map gen_vm_pu
                (flat_map (pd.rows_at gen_index (gen pp_net))
                   (map Z.of_nat flagged)));
           add_gen_slackbus (id_array flagged)]
        \/ (exists e rest,
              ext_grid pp_net = e :: rest
              /\ slack_part
                 = [add_gen_slackbus
                      (id_array
                         (np.where_
                            (map (fun g => Z.eqb (gen_bus g) (ext_grid_bus e))
                               (gen pp_net))))])
        \/ (exists e rest,
              ext_grid pp_net = e :: rest
              /\ slack_part
                 = [init_generators
                      (map gen_p_mw (gen pp_net)
                         ++ [(np.sum
                                (map (fun l => if is_nan (load_p_mw l)
                                               then 0%float else load_p_mw l)
                                   (load pp_net))
                              - np.sum
                                  (map (fun g => if is_nan (gen_p_mw g)
                                                 then 0%float else gen_p_mw g)
                                     (gen pp_net)))%float])
                      (map gen_vm_pu (gen pp_net) ++ [ext_grid_vm_pu e])
                      (map min_q_mvar (gen pp_net) ++ [(-999999)%float])
                      (map max_q_mvar (gen pp_net) ++ [99999%float])
                      (map gen_bus (gen pp_net) ++ [ext_grid_bus e]);
                    add_gen_slackbus (id_int (List.length (gen pp_net)))])).
Proof.
  intros Hacc converter vn_kv_of_buses lines trafos_ switched_off flagged.
  destruct (init_accepted _ Hacc) as [cs [Hcs Hinit]].
  exists cs. split.
  - rewrite Hinit. f_equal. flatten_calls. reflexivity.
  - unfold slack_calls in Hcs.
    destruct (np.any (map slack (gen pp_net))).
    + destruct (forallb _ _); [|discriminate]. injection Hcs as <-. now left.
    + destruct (ext_grid pp_net) as [|e rest]; [discriminate|]. right.
      destruct (np.any _); injection Hcs as <-.
      * left. exists e, rest. split; [reflexivity|].
        unfold np.eq. now rewrite map_map.
      * right. exists e, rest. split; [reflexivity|].
        unfold synthetic_generators_call.
        rewrite <- (sum_fillna (map load_p_mw _)), <- (sum_fillna (map gen_p_mw _)).
        unfold np.fillna_zero. now rewrite !map_map.
Qed.

Lemma C4_witness :
  let lines := line_param_call example_net in
  let trafos_ := trafo_param_call example_net in
  exists slack_part,
    init example_net
    = Returns
        ([init_bus [110%float; 110%float; 20%float] 2 2;
          init_powerlines (line_r_of lines) (line_x_of lines) (line_h_of lines)
            [0%Z; 1%Z] [1%Z; 0%Z]]
         ++ [deactivate_powerline 1]
         ++ [init_shunt [0%float] [(-1.5)%float] [2%Z]]
         ++ [deactivate_shunt 0]
         ++ [init_trafo (trafo_r_of trafos_) (trafo_x_of trafos_)
               (trafo_b_of trafos_) [0%float; 1.5%float] [0%float; (-2)%float]
               [false; true] [1%Z; 0%Z] [2%Z; 2%Z]]
         ++ [deactivate_trafo 1]
         ++ [init_loads [10%float; 5.5%float] [2%float; 1%float] [2%Z; 1%Z]]
         ++ [deactivate_load 1]
         ++ [init_generators [6%float] [1.5%float] [(-3)%float] [3%float] [1%Z]]
         ++ [deactivate_gen 0]
         ++ slack_part)
    /\ (slack_part
        = [change_v_gen (id_array []) []; add_gen_slackbus (id_array [])]
        \/ (exists e rest,
              ext_grid example_net = e :: rest
              /\ slack_part
                 = [add_gen_slackbus
                      (id_array
                         (np.where_
                            (map (fun g => Z.eqb (gen_bus g) (ext_grid_bus e))
                               (gen example_net))))])
        \/ (exists e rest,
              ext_grid example_net = e :: rest
              /\ slack_part
                 = [init_generators
                      ([6%float] ++ [9.5%float])
                      ([1.5%float] ++ [ext_grid_vm_pu e])
                      ([(-3)%float] ++ [(-999999)%float])
                      ([3%float] ++ [99999%float])
                      ([1%Z] ++ [ext_grid_bus e]);
                    add_gen_slackbus (id_int 1)])).
Proof.
  exact (C4_what_init_forwards example_net eq_refl).
Defined.


(** With exactly one generator flagged as slack, found under its position
    in the generator index, [init] registers that one generator and applies
    its voltage setpoint. *)
Lemma single_slack_flag_registers_one_generator (pp_net : PPNet) (i : nat)
    (g : GenRow) :
  bus_labels_found pp_net = true ->
  np.where_ (map slack (gen pp_net)) = [i] ->
  pd.rows_at gen_index (gen pp_net) (Z.of_nat i) = [g] ->
  init pp_net
  = Returns
      (element_calls pp_net
       ++ [change_v_gen (id_array [i]) [gen_vm_pu g];
           add_gen_slackbus (id_array [i])]).
Proof.
  intros Hbus Hwhere Hrow.
  rewrite init_refines. unfold init_spec, slack_calls. rewrite Hbus, Hwhere.
  assert (Hany : np.any (map slack (gen pp_net)) = true).
  { destruct (np.any (map slack (gen pp_net))) eqn:E; [reflexivity|].
    apply any_false_iff in E.
    unfold np.where_ in Hwhere.
    now rewrite (where_from_all_false _ 0 E) in Hwhere. }
  assert (Hlabel : has_label gen_index (gen pp_net) (Z.of_nat i) = true).
  { destruct (has_label gen_index (gen pp_net) (Z.of_nat i)) eqn:E;
      [reflexivity|].
    apply rows_at_nil in E. congruence. }
  rewrite Hany. cbn [map forallb flat_map]. rewrite Hlabel, Hrow. reflexivity.
Qed.

(** C7 fails on the code.  With two generators flagged as slack, [init]
    hands the array of both positions to [change_v_gen] and to
    [add_gen_slackbus]: two identifiers, not one. *)
Theorem C7_two_slack_flags_register_two_generators :
  init two_slack_net
  = Returns
      (element_calls two_slack_net
       ++ [change_v_gen (id_array [0; 1]) [1.5%float; 1.25%float];
           add_gen_slackbus (id_array [0; 1])]).
Proof. reflexivity. Qed.

(** C9.  In a model built by [init], the [tap_pos] column [init_trafo]
    receives has no non-finite entry, so the mask [~np.isfinite(tap_pos)]
    is [False] everywhere, and the [is_tap_hv_side] column [init_trafo]
    receives is [tap_side == "hv"] entry by entry, also where the original
    [tap_pos] was not finite. *)
Theorem C9_tap_side_override_never_applies (pp_net : PPNet) :
  accepted pp_net = true ->
  exists model,
    init pp_net = Returns model
    /\ (exists r x b tap_step tap_position side hv lv,
           In (init_trafo r x b tap_step tap_position side hv lv) model)
    /\ forall r x b tap_step tap_position side hv lv,
         In (init_trafo r x b tap_step tap_position side hv lv) model ->
         Forall (fun masked => masked = false)
           (np.invert (np.isfinite tap_position))
         /\ side = map (fun t => is_hv (tap_side t)) (trafo pp_net).
Proof.
  intros Hacc. destruct (init_accepted _ Hacc) as [cs [Hcs Hinit]].
  exists (element_calls pp_net ++ cs). split; [exact Hinit|]. split.
  - unfold trafo_call. do 8 eexists. apply (trafo_call_In pp_net cs).
  - intros r x b ts tp side hv lv Hin.
    assert (H : init_trafo r x b ts tp side hv lv = trafo_call pp_net).
    { apply (model_init_trafo pp_net cs); eauto 10. }
    unfold trafo_call in H. injection H; intros; subst.
    split; [apply repaired_mask_all_false | reflexivity].
Qed.

Lemma C9_witness :
  exists model,
    init example_net = Returns model
    /\ (exists r x b tap_step tap_position side hv lv,
           In (init_trafo r x b tap_step tap_position side hv lv) model)
    /\ forall r x b tap_step tap_position side hv lv,
         In (init_trafo r x b tap_step tap_position side hv lv) model ->
         Forall (fun masked => masked = false)
           (np.invert (np.isfinite tap_position))
         /\ side = [false; true].
Proof.
  apply (C9_tap_side_override_never_applies example_net). reflexivity.
Defined.

End InitFacts.


(* ================================================================= *)
(** * The solver objects *)

Section HeapFacts.
Import Pyklu.
Context `{T : PyTypes} {K : KLUSolverClass}.

Lemma update_length (r : nat) (f : SolverObject -> SolverObject) (h : Heap) :
  List.length (update r f h) = List.length h.
Proof.
  revert r; induction h as [|o h IH]; intros [|r]; cbn; auto.
Qed.

Lemma deref_update (r : nat) (f : SolverObject -> SolverObject) (h : Heap) :
  r < List.length h -> deref r (update r f h) = f (deref r h).
Proof.
  unfold deref. revert r; induction h as [|o h IH]; intros [|r] Hr; cbn in *;
    try lia; [reflexivity | apply IH; lia].
Qed.

(** Calls on one object leave the others as they are. *)
Lemma deref_update_other (r r' : nat) (f : SolverObject -> SolverObject)
    (h : Heap) :
  r <> r' -> deref r' (update r f h) = deref r' h.
Proof.
  unfold deref. revert r r'; induction h as [|o h IH]; intros [|r] [|r'] Hne;
    cbn; try reflexivity; try congruence.
  apply IH. congruence.
Qed.

Lemma deref_fresh (h : Heap) (o : SolverObject) :
  deref (List.length h) (h ++ [o]) = o.
Proof. unfold deref. now rewrite nth_middle. Qed.

Lemma update_fresh (f : SolverObject -> SolverObject) (h : Heap)
    (o : SolverObject) :
  update (List.length h) f (h ++ [o]) = h ++ [f o].
Proof. induction h as [|o' h IH]; cbn; [reflexivity | now rewrite IH]. Qed.

End HeapFacts.

(* ================================================================= *)
(** * The claims about [newtonpf] *)

Section NewtonpfFacts.
Import Pyklu.
Context `{T : PyTypes} {P : Pandapower} {K : KLUSolverClass}.

(** One call of [newtonpf], from any heap: a new solver object is
    constructed, solved once, and read. *)
Lemma newtonpf_run (Ybus : Matrix) (V Sbus pv pq : Array) (ppci : Ppci)
    (options : Options) (h : Heap) :
  newtonpf Ybus V Sbus pv pq ppci options h
  = let st :=
      solve_state (csc_matrix Ybus) V Sbus pv pq (max_iteration options)
        (tolerance_mva options) fresh_state in
    (Returns (np_mul (Vm_of st) (np_exp_1j (Va_of st)),
              converged_of st, nb_iter_of st, J_of st),
     h ++ [{| state := st;
              calls := [called_solve (csc_matrix Ybus) V Sbus pv pq
                          (max_iteration options) (tolerance_mva options)] |}]).
Proof.
  unfold newtonpf, bind, KLUSolver, solve, modify, get_Va, get_Vm, get_J,
    solver_converged, get_nb_iter, read, ret.
  cbn. now rewrite update_fresh, deref_fresh.
Qed.

(** C5.  For every input and from every heap, [newtonpf] returns the tuple
    [(Vm * exp(1j * Va), converged(), get_nb_iter(), get_J())] read from the
    solver after its solve, whether the solve converged or not: the outcome
    is the boolean in the tuple, and no path of [newtonpf] raises. *)
Theorem C5_newtonpf_returns_solver_outcome (Ybus : Matrix)
    (V Sbus pv pq : Array) (ppci : Ppci) (options : Options) (h : Heap) :
  exists st : SolverState,
    st = solve_state (csc_matrix Ybus) V Sbus pv pq (max_iteration options)
           (tolerance_mva options) fresh_state
    /\ fst (newtonpf Ybus V Sbus pv pq ppci options h)
       = Returns (np_mul (Vm_of st) (np_exp_1j (Va_of st)),
                  converged_of st, nb_iter_of st, J_of st).
Proof.
  eexists. split; [reflexivity|]. now rewrite newtonpf_run.
Qed.

(** C10.  What [newtonpf] returns does not depend on the solver objects
    that exist when it is called, hence not on any earlier call: two calls
    with equal arguments return equal tuples.  The call constructs one new
    solver object and leaves every existing one as it was. *)
Theorem C10_newtonpf_is_stateless (Ybus : Matrix) (V Sbus pv pq : Array)
    (ppci : Ppci) (options : Options) (h1 h2 : Heap) :
  fst (newtonpf Ybus V Sbus pv pq ppci options h1)
  = fst (newtonpf Ybus V Sbus pv pq ppci options h2)
  /\ (exists o, snd (newtonpf Ybus V Sbus pv pq ppci options h1) = h1 ++ [o])
  /\ fst (newtonpf Ybus V Sbus pv pq ppci options
            (snd (newtonpf Ybus V Sbus pv pq ppci options h1)))
     = fst (newtonpf Ybus V Sbus pv pq ppci options h1).
Proof.
  rewrite !newtonpf_run. cbn. repeat split. eauto.
Qed.

End NewtonpfFacts.

(* ================================================================= *)
(** * The claims about [KLU4Pandapower.runpp] *)

Section RunppFacts.
Import Pyklu.
Context `{T : PyTypes} {P : Pandapower} {K : KLUSolverClass}.

(** Lines 69-121 never raise; they replace [self.ppci] by the ppci
    converted from the net of the call and touch nothing else of [self]
    and no solver object. *)
Lemma runpp_powerflow_run (mi : Z) (need_reset : bool) (kw : Kwargs)
    (s : Store) :
  runpp_powerflow mi need_reset kw s
  = (Returns (options_of_call mi need_reset kw (net s)),
     {| solvers := solvers s;
        self := set_ppci (Some (converted_ppci mi need_reset kw (net s))) (self s);
        net := net_after_conversion mi need_reset kw (net s) |}).
Proof.
  unfold runpp_powerflow, options_of_call, net_after_conversion,
    converted_ppci, net_before_conversion.
  unfold bind, the_net, on_net, assign, modify, ret. cbn.
  repeat match goal with
         | |- context [if ?c then _ else _] => destruct c; cbn
         end;
    match goal with
    | |- context [_pd2ppc ?n] => destruct (_pd2ppc n) as [[n3 ppc] p]
    end; reflexivity.
Qed.

(** *** One statement of the driver at a time *)

Lemma bind_attr {A B : Type} (f : KLU4Pandapower -> A) (k : A -> M Store B)
    (h : Heap) (o : KLU4Pandapower) (n : Net) :
  bind (attr f) k {| solvers := h; self := o; net := n |}
  = k (f o) {| solvers := h; self := o; net := n |}.
Proof. reflexivity. Qed.

Lemma bind_assign {B : Type} (f : KLU4Pandapower -> KLU4Pandapower)
    (k : unit -> M Store B) (h : Heap) (o : KLU4Pandapower) (n : Net) :
  bind (assign f) k {| solvers := h; self := o; net := n |}
  = k tt {| solvers := h; self := f o; net := n |}.
Proof. reflexivity. Qed.

Lemma bind_on_net {B : Type} (f : Net -> Net) (k : unit -> M Store B)
    (h : Heap) (o : KLU4Pandapower) (n : Net) :
  bind (on_net f) k {| solvers := h; self := o; net := n |}
  = k tt {| solvers := h; self := o; net := f n |}.
Proof. reflexivity. Qed.

Lemma bind_not_None {St A B : Type} (a : A) (k : A -> M St B) (s : St) :
  bind (not_None (Some a)) k s = k a s.
Proof. reflexivity. Qed.

Lemma bind_raise {St A B : Type} (e : exn) (k : A -> M St B) (s : St) :
  bind (raise e) k s = (Raises e, s).
Proof. reflexivity. Qed.

Lemma bind_reset {B : Type} (r : nat) (k : unit -> M Store B)
    (h : Heap) (o : KLU4Pandapower) (n : Net) :
  bind (on_solvers (reset r)) k {| solvers := h; self := o; net := n |}
  = k tt
      {| solvers :=
           update r (fun obj =>
             {| state := reset_state (state obj);
                calls := calls obj ++ [called_reset] |}) h;
         self := o; net := n |}.
Proof. reflexivity. Qed.

Lemma bind_solve {B : Type} (r : nat) (Y : Matrix) (v S a b : Array)
    (m : Z) (tol : float) (k : unit -> M Store B)
    (h : Heap) (o : KLU4Pandapower) (n : Net) :
  bind (on_solvers (solve r Y v S a b m tol)) k
    {| solvers := h; self := o; net := n |}
  = k tt
      {| solvers :=
           update r (fun obj =>
             {| state := solve_state Y v S a b m tol (state obj);
                calls := calls obj ++ [called_solve Y v S a b m tol] |}) h;
         self := o; net := n |}.
Proof. reflexivity. Qed.

Lemma bind_read {A B : Type} (r : nat) (f : SolverState -> A)
    (k : A -> M Store B) (h : Heap) (o : KLU4Pandapower) (n : Net) :
  bind (on_solvers (read r f)) k {| solvers := h; self := o; net := n |}
  = k (f (state (deref r h))) {| solvers := h; self := o; net := n |}.
Proof. reflexivity. Qed.

(** Line 205: the call goes on when the solve has converged and raises
    [LoadflowNotConverged] otherwise; the net is the one [_ppci_to_net]
    leaves in both cases. *)
Lemma bind_ppci_to_net {B : Type} (p : Ppci) (bus_ gen_ branch_ : Array)
    (success : bool) (iterations : Z) (k : unit -> M Store B)
    (h : Heap) (o : KLU4Pandapower) (n : Net) :
  bind (ppci_to_net
          (_store_results_from_pf_in_ppci p bus_ gen_ branch_ success iterations))
    k {| solvers := h; self := o; net := n |}
  = let n' :=
      snd (_ppci_to_net
             (_store_results_from_pf_in_ppci p bus_ gen_ branch_ success
                iterations) n) in
    if success then k tt {| solvers := h; self := o; net := n' |}
    else (Raises LoadflowNotConverged, {| solvers := h; self := o; net := n' |}).
Proof.
  unfold bind, ppci_to_net. cbn [net solvers self].
  pose proof (_ppci_to_net_outcome p bus_ gen_ branch_ success iterations n) as H.
  destruct (_ppci_to_net _ n) as [r n']. cbn [fst snd] in *. subst r.
  now destruct success.
Qed.

Ltac drv_simpl :=
  cbv beta iota zeta;
  cbn [solver ppci V Ybus pv pq Yf Yt bus gen branch ref ref_gens baseMVA
       set_ppci set_V set_Ybus set_pv set_pq set_Yf set_Yt set_bus set_gen
       set_branch set_ref set_ref_gens set_baseMVA].

Ltac drv_step :=
  first [ rewrite bind_bind
        | rewrite bind_attr
        | rewrite bind_assign
        | rewrite bind_on_net
        | rewrite bind_not_None
        | rewrite bind_raise
        | rewrite bind_reset
        | rewrite bind_solve
        | rewrite bind_read
        | rewrite bind_ppci_to_net
        | rewrite bind_ret
        | match goal with
          | |- context [_get_Y_bus ?a ?b ?c ?d ?e ?f] =>
              destruct (_get_Y_bus a b c d e f) as [[[? ?] ?] ?]
          | |- context [ppci_to_pfsoln ?a ?b] =>
              destruct (ppci_to_pfsoln a b) as [[? ?] ?]
          end ];
  drv_simpl.

(** Run the second part of [runpp] on a store whose attributes are known. *)
Ltac run_driver :=
  unfold runpp_run_newton_raphson_pf, get_Va, get_Vm, get_J,
    solver_converged, get_nb_iter, get_timers;
  drv_simpl; repeat drv_step.

(** The two ways the second part ends, once the solve is known to have
    converged or not. *)
Ltac end_of_run Hr :=
  let Hc := fresh "Hconverged" in
  match goal with
  | |- context [if ?c then _ else _] => destruct c eqn:Hc
  end;
  unfold assign, modify; cbv beta; cbn [self solvers net];
  (eexists; split;
   [ apply f_equal2; [|reflexivity];
     cbn [self solvers]; drv_simpl; rewrite Hc; reflexivity
   | cbn [self solvers]; drv_simpl;
     rewrite ?update_length, ?deref_update
       by (rewrite ?update_length; exact Hr);
     cbn [calls state Ybus V pv pq] ]).

(** Lines 123-214 without a reset: one solve on the stored [Ybus], [V], [pv]
    and [pq], with the injections of the stored ppci.  The call returns
    when the solver reports convergence and raises [LoadflowNotConverged]
    otherwise; in both cases [self.V] is the voltage the solver computed. *)
Lemma run_without_reset (options : Options) (s : Store) (p : Ppci)
    (Y : Matrix) (v a b : Array) :
  solver_constructed s ->
  ppci (self s) = Some p -> Ybus (self s) = Some Y -> V (self s) = Some v ->
  pv (self s) = Some a -> pq (self s) = Some b ->
  exists s',
    runpp_run_newton_raphson_pf false options s
    = (if converged_of (state (solver_object s'))
       then Returns tt else Raises LoadflowNotConverged, s')
    /\ solver (self s') = solver (self s)
    /\ List.length (solvers s') = List.length (solvers s)
    /\ calls (solver_object s')
       = calls (solver_object s)
         ++ [called_solve (csc_matrix Y) v (_get_Sbus p) a b
               (max_iteration options) (tolerance_mva options)]
    /\ state (solver_object s')
       = solve_state (csc_matrix Y) v (_get_Sbus p) a b
           (max_iteration options) (tolerance_mva options)
           (state (solver_object s))
    /\ Ybus (self s') = Some (csc_matrix Y)
    /\ V (self s')
       = Some (np_mul (Vm_of (state (solver_object s')))
                 (np_exp_1j (Va_of (state (solver_object s')))))
    /\ pv (self s') = Some a
    /\ pq (self s') = Some b.
Proof.
  unfold solver_constructed, solver_object.
  destruct s as [h [r ppci0 V0 Ybus0 pv0 pq0 Yf0 Yt0 bus0 gen0 branch0 ref0 rg0 mva0] n].
  cbn [self solvers net solver ppci Ybus V pv pq]. intros Hr -> -> -> -> ->.
  run_driver.
  end_of_run Hr; repeat split.
Qed.


(** Lines 123-214 with a reset and the request to enforce reactive limits:
    [NotImplementedError], and no call on any solver object. *)
Lemma run_with_reset_rejects_q_lims (options : Options) (s : Store) (p : Ppci) :
  ppci (self s) = Some p ->
  enforce_q_lims options = true ->
  exists s',
    runpp_run_newton_raphson_pf true options s
    = (Raises (NotImplementedError "enforce_q_lims not yet implemented"), s')
    /\ solvers s' = solvers s.
Proof.
  destruct s as [h [r ppci0 V0 Ybus0 pv0 pq0 Yf0 Yt0 bus0 gen0 branch0 ref0 rg0 mva0] n].
  cbn [self solvers net solver ppci Ybus V pv pq]. intros -> Hq.
  unfold runpp_run_newton_raphson_pf. rewrite Hq.
  destruct (init_va_degree options) as [str|];
    [destruct (String.eqb str "dc")|];
    run_driver; eexists; split; reflexivity.
Qed.

(** [runpp] is its two parts in sequence, the first of which always
    returns. *)
Lemma runpp_unfold (mi : Z) (need_reset : bool) (kw : Kwargs) (s : Store) :
  runpp mi need_reset kw s
  = runpp_run_newton_raphson_pf need_reset
      (options_of_call mi need_reset kw (net s))
      {| solvers := solvers s;
         self := set_ppci (Some (converted_ppci mi need_reset kw (net s)))
                   (self s);
         net := net_after_conversion mi need_reset kw (net s) |}.
Proof. unfold runpp, bind. now rewrite runpp_powerflow_run. Qed.

(** A resetting call that is asked to enforce reactive limits raises
    [NotImplementedError] and calls no solver method. *)
Lemma runpp_reset_rejects_q_lims (s : Store) (mi : Z) (kw : Kwargs) :
  enforce_q_lims (options_of_call mi true kw (net s)) = true ->
  exists s',
    runpp mi true kw s
    = (Raises (NotImplementedError "enforce_q_lims not yet implemented"), s')
    /\ solvers s' = solvers s.
Proof.
  intros Hq. rewrite runpp_unfold.
  destruct (run_with_reset_rejects_q_lims _
              {| solvers := solvers s;
                 self := set_ppci (Some (converted_ppci mi true kw (net s)))
                           (self s);
                 net := net_after_conversion mi true kw (net s) |}
              (converted_ppci mi true kw (net s)) eq_refl Hq)
    as [s' [Hrun Hsolvers]].
  exists s'. split; [exact Hrun | exact Hsolvers].
Qed.


(** A call with [need_reset=False] on an object that has solved before. *)
Lemma runpp_without_reset (s : Store) (mi : Z) (kw : Kwargs) (Y : Matrix)
    (v a b : Array) :
  solver_constructed s ->
  Ybus (self s) = Some Y -> V (self s) = Some v ->
  pv (self s) = Some a -> pq (self s) = Some b ->
  let o := options_of_call mi false kw (net s) in
  let S := _get_Sbus (converted_ppci mi false kw (net s)) in
  exists s',
    runpp mi false kw s
    = (if converged_of (state (solver_object s'))
       then Returns tt else Raises LoadflowNotConverged, s')
    /\ solver_constructed s'
    /\ calls (solver_object s')
       = calls (solver_object s)
         ++ [called_solve (csc_matrix Y) v S a b
               (max_iteration o) (tolerance_mva o)]
    /\ state (solver_object s')
       = solve_state (csc_matrix Y) v S a b (max_iteration o) (tolerance_mva o)
           (state (solver_object s))
    /\ Ybus (self s') = Some (csc_matrix Y)
    /\ V (self s')
       = Some (np_mul (Vm_of (state (solver_object s')))
                 (np_exp_1j (Va_of (state (solver_object s')))))
    /\ pv (self s') = Some a
    /\ pq (self s') = Some b.
Proof.
  intros Hr HY HV Hpv Hpq o S. rewrite runpp_unfold.
  destruct (run_without_reset o
              {| solvers := solvers s;
                 self := set_ppci (Some (converted_ppci mi false kw (net s)))
                           (self s);
                 net := net_after_conversion mi false kw (net s) |}
              (converted_ppci mi false kw (net s)) Y v a b
              Hr eq_refl HY HV Hpv Hpq)
    as [s' [Hrun [Hsolver [Hlen H]]]].
  exists s'. split; [exact Hrun|]. split; [|exact H].
  unfold solver_constructed in *. rewrite Hsolver, Hlen. exact Hr.
Qed.


(** C8 fails on the code.  A call with [need_reset=False] on an object that
    has solved before is not stopped by [enforce_q_lims]: it calls the
    solver's [solve], and returns normally when that solve converged (it
    raises [LoadflowNotConverged] after the solve otherwise, never
    [NotImplementedError]). *)
Theorem C8_warm_start_ignores_enforce_q_lims (s : Store) (mi : Z)
    (kw : Kwargs) (Y : Matrix) (v a b : Array) :
  solver_constructed s ->
  Ybus (self s) = Some Y -> V (self s) = Some v ->
  pv (self s) = Some a -> pq (self s) = Some b ->
  enforce_q_lims (options_of_call mi false kw (net s)) = true ->
  exists s',
    runpp mi false kw s
    = (if converged_of (state (solver_object s'))
       then Returns tt else Raises LoadflowNotConverged, s')
    /\ calls (solver_object s')
       = calls (solver_object s)
         ++ [called_solve (csc_matrix Y) v
               (_get_Sbus (converted_ppci mi false kw (net s))) a b
               (max_iteration (options_of_call mi false kw (net s)))
               (tolerance_mva (options_of_call mi false kw (net s)))]
    /\ state (solver_object s')
       = solve_state (csc_matrix Y) v
           (_get_Sbus (converted_ppci mi false kw (net s))) a b
           (max_iteration (options_of_call mi false kw (net s)))
           (tolerance_mva (options_of_call mi false kw (net s)))
           (state (solver_object s)).
Proof.
  intros Hr HY HV Hpv Hpq _.
  destruct (runpp_without_reset s mi kw Y v a b Hr HY HV Hpv Hpq)
    as [s' [Hrun [_ [Hcalls [Hstate _]]]]].
  exists s'. split; [exact Hrun|]. split; [exact Hcalls | exact Hstate].
Qed.

End RunppFacts.

(** ** The driver on the stand-in libraries *)

Section RunppExamples.
Import Pyklu.
#[local] Existing Instance demo_types.
#[local] Existing Instance demo_pandapower.
#[local] Existing Instance demo_solver.


Lemma C8_witness :
  (exists s',
     runpp 10 false tt (with_net (demo_net 9 true) demo_store_after_first_run)
     = (if converged_of (state (solver_object s'))
        then Returns tt else Raises LoadflowNotConverged, s')
     /\ calls (solver_object s')
        = [called_reset;
           called_solve 7%Z [100; 100]%Z [5; -5]%Z [] [1%Z] 10 0.5%float]
          ++ [called_solve 7%Z [105; 95]%Z [9; -9]%Z [] [1%Z] 10 0.5%float]
     /\ state (solver_object s')
        = solve_state 7%Z [105; 95]%Z [9; -9]%Z [] [1%Z] 10 0.5%float
            (state (solver_object demo_store_after_first_run)))
  /\ fst (runpp 10 false tt
            (with_net (demo_net 9 true) demo_store_after_first_run))
     = Returns tt.
Proof.
  assert (Hr : solver_constructed
                 (with_net (demo_net 9 true) demo_store_after_first_run)).
  { unfold solver_constructed. cbn. lia. }
  split; [|reflexivity].
  exact (C8_warm_start_ignores_enforce_q_lims
           (with_net (demo_net 9 true) demo_store_after_first_run) 10 tt
           7%Z [105; 95]%Z [] [1%Z] Hr eq_refl eq_refl eq_refl eq_refl eq_refl).
Defined.

End RunppExamples.

(* ================================================================= *)
(** * Further properties of [init] *)

Section InitCoverage.
Import InitGridModel.

(** ** The order of the buses *)

Lemma argsort_insert_perm (k : Z) (p : nat) (acc : list (Z * nat)) :
  Permutation (np.argsort_insert k p acc) ((k, p) :: acc).
Proof.
  induction acc as [|[k' p'] acc IH]; simpl; [reflexivity|].
  destruct (Z.leb k k'); [reflexivity|].
  rewrite IH. apply perm_swap.
Qed.

Lemma argsort_from_perm (keys : list Z) (start : nat) :
  Permutation (np.argsort_from start keys)
    (combine keys (seq start (List.length keys))).
Proof.
  revert start; induction keys as [|k keys IH]; intros start; simpl;
    [reflexivity|].
  rewrite argsort_insert_perm. constructor. apply IH.
Qed.

Lemma argsort_insert_sorted (k : Z) (p : nat) (acc : list (Z * nat)) :
  StronglySorted (fun a b => (fst a <= fst b)%Z) acc ->
  StronglySorted (fun a b => (fst a <= fst b)%Z) (np.argsort_insert k p acc).
Proof.
  induction 1 as [|[k' p'] acc Hsorted IH Hall]; simpl.
  - repeat constructor.
  - destruct (Z.leb k k') eqn:E.
    + apply Z.leb_le in E. constructor.
      * constructor; assumption.
      * constructor; [simpl; lia|].
        eapply Forall_impl; [|exact Hall]. simpl. intros; lia.
    + apply Z.leb_gt in E. constructor; [exact IH|].
      eapply Permutation_Forall.
      * symmetry. apply argsort_insert_perm.
      * constructor; [simpl; lia | exact Hall].
Qed.

Lemma argsort_from_sorted (keys : list Z) (start : nat) :
  StronglySorted (fun a b => (fst a <= fst b)%Z) (np.argsort_from start keys).
Proof.
  revert start; induction keys as [|k keys IH]; intros start; simpl.
  - constructor.
  - apply argsort_insert_sorted, IH.
Qed.

Lemma sorted_keys (l : list (Z * nat)) :
  StronglySorted (fun a b => (fst a <= fst b)%Z) l ->
  StronglySorted Z.le (map fst l).
Proof.
  induction 1 as [|a l _ IH Hall]; simpl; constructor; [exact IH|].
  apply Forall_map. exact Hall.
Qed.

Lemma take_rows_all {Row : Type} (pre rows : list Row) :
  take_rows (pre ++ rows) (seq (List.length pre) (List.length rows)) = rows.
Proof.
  unfold take_rows. revert pre; induction rows as [|r rows IH]; intros pre;
    simpl; [reflexivity|].
  rewrite nth_error_app2, Nat.sub_diag by lia. simpl. f_equal.
  specialize (IH (pre ++ [r])).
  rewrite <- app_assoc, length_app, Nat.add_1_r in IH. exact IH.
Qed.

Lemma map_snd_combine_seq (keys : list Z) (start : nat) :
  map snd (combine keys (seq start (List.length keys)))
  = seq start (List.length keys).
Proof.
  revert start; induction keys as [|k keys IH]; intros start; simpl;
    [reflexivity | now rewrite IH].
Qed.

(** Each pair of key and position that [argsort] works on is a row's label
    and that row's position. *)
Lemma combine_index_rows {Row : Type} (index : Row -> Z) (pre rows : list Row) :
  Forall (fun kp => exists r, nth_error (pre ++ rows) (snd kp) = Some r
                              /\ index r = fst kp)
    (combine (map index rows) (seq (List.length pre) (List.length rows))).
Proof.
  revert pre; induction rows as [|r rows IH]; intros pre; simpl; constructor.
  - exists r. simpl. now rewrite nth_error_app2, Nat.sub_diag by lia.
  - specialize (IH (pre ++ [r])).
    rewrite <- app_assoc, length_app, Nat.add_1_r in IH. exact IH.
Qed.

Lemma take_rows_index {Row : Type} (index : Row -> Z) (rows : list Row)
    (l : list (Z * nat)) :
  Forall (fun kp => exists r, nth_error rows (snd kp) = Some r
                              /\ index r = fst kp) l ->
  map index (take_rows rows (map snd l)) = map fst l.
Proof.
  unfold take_rows. induction 1 as [|[k p] l [r [Hr Hk]] _ IH]; simpl;
    [reflexivity|].
  simpl in Hr, Hk. rewrite Hr. simpl. now rewrite IH, Hk.
Qed.

(** The rows [bus.iloc[np.argsort(bus.index)]] selects: every row once, in
    non-decreasing order of label. *)
Lemma rows_by_index {Row : Type} (index : Row -> Z) (rows : list Row) :
  Permutation (take_rows rows (np.argsort (map index rows))) rows
  /\ StronglySorted Z.le
       (map index (take_rows rows (np.argsort (map index rows)))).
Proof.
  unfold np.argsort.
  pose proof (argsort_from_perm (map index rows) 0) as Hperm.
  rewrite length_map in Hperm. split.
  - pose proof (map_snd_combine_seq (map index rows) 0) as Hsnd.
    rewrite length_map in Hsnd.
    apply Permutation_trans with (take_rows rows (seq 0 (List.length rows))).
    + unfold take_rows. apply Permutation_flat_map.
      rewrite <- Hsnd. apply Permutation_map. exact Hperm.
    + pose proof (take_rows_all [] rows) as Hall. simpl in Hall.
      now rewrite Hall.
  - rewrite (take_rows_index index).
    + apply sorted_keys, argsort_from_sorted.
    + eapply Permutation_Forall; [symmetry; exact Hperm|].
      apply (combine_index_rows index [] rows).
Qed.

(** X1.  The first call on a model built by [init] is [init_bus], with the
    nominal voltage of every bus exactly once, in non-decreasing order of
    the bus index labels, and with the numbers of lines and transformers. *)
Theorem X1_init_bus_receives_buses_in_index_order (pp_net : PPNet) :
  accepted pp_net = true ->
  exists sorted rest,
    init pp_net
    = Returns (init_bus (map bus_vn_kv sorted) (List.length (line pp_net))
                 (List.length (trafo pp_net)) :: rest)
    /\ Permutation sorted (bus pp_net)
    /\ StronglySorted Z.le (map bus_index sorted).
Proof.
  intros Hacc. destruct (init_accepted _ Hacc) as [cs [_ Hinit]].
  exists (take_rows (bus pp_net) (np.argsort (map bus_index (bus pp_net)))).
  exists (flat_map (table_calls pp_net) all_tables ++ cs).
  split; [exact Hinit | apply rows_by_index].
Qed.

Lemma X1_witness :
  exists sorted rest,
    init example_net = Returns (init_bus (map bus_vn_kv sorted) 2 2 :: rest)
    /\ Permutation sorted (bus example_net)
    /\ StronglySorted Z.le (map bus_index sorted).
Proof.
  apply (X1_init_bus_receives_buses_in_index_order example_net). reflexivity.
Defined.

(** ** The slack registration *)

Lemma where_from_sorted (m : list bool) (start : nat) :
  StronglySorted lt (np.where_from start m)
  /\ Forall (fun i => start <= i < start + List.length m) (np.where_from start m).
Proof.
  revert start; induction m as [|b m IH]; intros start; simpl.
  - split; constructor.
  - destruct (IH (S start)) as [Hsorted Hbound].
    assert (Hshift : Forall (fun i => start <= i < start + S (List.length m))
                       (np.where_from (S start) m)).
    { eapply Forall_impl; [|exact Hbound]. simpl; intros; lia. }
    destruct b; [|split; assumption]. split.
    + constructor; [exact Hsorted|].
      eapply Forall_impl; [|exact Hbound]. simpl; intros; lia.
    + constructor; [lia | exact Hshift].
Qed.

Lemma where_nonempty (m : list bool) :
  np.any m = true -> np.where_ m <> [].
Proof.
  intros Hany Hnil.
  assert (H : np.any m = false); [|congruence].
  apply any_false_iff, Forall_forall. intros b Hb.
  destruct b; [|reflexivity].
  apply In_nth_error in Hb as [i Hi].
  apply where_In in Hi. rewrite Hnil in Hi. destruct Hi.
Qed.

Lemma where_valid (m : list bool) :
  StronglySorted lt (np.where_ m)
  /\ Forall (fun i => i < List.length m) (np.where_ m).
Proof.
  destruct (where_from_sorted m 0) as [Hsorted Hbound]. split; [exact Hsorted|].
  eapply Forall_impl; [|exact Hbound]. simpl; intros; lia.
Qed.

Lemma last_declared_app (before after : list Call) (c : Call) (n : nat) :
  generators_declared c = Some n ->
  Forall (fun c' => generators_declared c' = None) after ->
  last_declared (before ++ c :: after) = Some n.
Proof.
  intros Hc Hafter. unfold last_declared. rewrite fold_left_app. simpl.
  rewrite Hc. clear Hc.
  induction Hafter as [|c' after Hc' _ IH]; simpl; [reflexivity|].
  now rewrite Hc'.
Qed.

(** The calls up to the choice of the slack end with the initialisation of
    the generators and their deactivations. *)
Lemma element_calls_end (pp_net : PPNet) :
  exists before,
    element_calls pp_net
    = before ++ generators_call pp_net
        :: map deactivate_gen
             (out_of_service (map gen_in_service (gen pp_net))).
Proof.
  exists (bus_call pp_net
          :: table_calls pp_net powerlines ++ table_calls pp_net shunts
             ++ table_calls pp_net trafos ++ table_calls pp_net loads).
  unfold element_calls, all_tables. cbn [flat_map].
  rewrite app_nil_r, <- app_comm_cons, <- !app_assoc. reflexivity.
Qed.

(** What the choice of the slack appends to a model. *)
Lemma slack_calls_shape (pp_net : PPNet) (cs : list Call) :
  slack_calls pp_net = Returns cs ->
  exists pre g,
    cs = pre ++ [add_gen_slackbus g]
    /\ Forall (fun c => is_slack_registration c = false) pre
    /\ match g with
       | id_array ids =>
           ids <> [] /\ StronglySorted lt ids
           /\ Forall (fun i => i < List.length (gen pp_net)) ids
           /\ Forall (fun c => generators_declared c = None) pre
       | id_int n =>
           n = List.length (gen pp_net)
           /\ exists c, pre = [c] /\ generators_declared c = Some (S n)
       end.
Proof.
  unfold slack_calls. destruct (np.any (map slack (gen pp_net))) eqn:Hany.
  - destruct (forallb _ _); [|discriminate]. intros [= <-].
    eexists [_], _. split; [reflexivity|]. split; [repeat constructor|].
    destruct (where_valid (map slack (gen pp_net))) as [Hsorted Hbound].
    rewrite length_map in Hbound.
    repeat split; auto using where_nonempty.
  - destruct (ext_grid pp_net) as [|e rest]; [discriminate|].
    destruct (np.any (np.eq _ _)) eqn:Hbus; intros [= <-].
    + exists [], (id_array (np.where_ (np.eq (map gen_bus (gen pp_net))
                                         (ext_grid_bus e)))).
      split; [reflexivity|]. split; [constructor|].
      destruct (where_valid (np.eq (map gen_bus (gen pp_net)) (ext_grid_bus e)))
        as [Hsorted Hbound].
      unfold np.eq in Hbound at 1. rewrite !length_map in Hbound.
      repeat split; auto using where_nonempty.
    + eexists [_], _. split; [reflexivity|]. split; [repeat constructor|].
      split; [reflexivity|]. eexists. split; [reflexivity|].
      cbn. now rewrite length_app, length_map, Nat.add_1_r.
Qed.

(** X2.  A model built by [init] has exactly one [add_gen_slackbus] call,
    and it is the last call on the model, on each of the three paths of the
    slack choice. *)
Theorem X2_slack_registered_once_as_last_call (pp_net : PPNet) :
  accepted pp_net = true ->
  exists earlier g,
    init pp_net = Returns (earlier ++ [add_gen_slackbus g])
    /\ Forall (fun c => is_slack_registration c = false) earlier.
Proof.
  intros Hacc. destruct (init_accepted _ Hacc) as [cs [Hcs Hinit]].
  destruct (slack_calls_shape _ _ Hcs) as [pre [g [-> [Hpre _]]]].
  exists (element_calls pp_net ++ pre), g. split.
  - now rewrite <- app_assoc.
  - apply Forall_app. split; [apply element_calls_no_slack | exact Hpre].
Qed.

Lemma X2_witness :
  exists earlier g,
    init two_slack_net = Returns (earlier ++ [add_gen_slackbus g])
    /\ Forall (fun c => is_slack_registration c = false) earlier.
Proof.
  apply (X2_slack_registered_once_as_last_call two_slack_net). reflexivity.
Defined.

(** X3.  The identifier [init] hands to [add_gen_slackbus] always refers to
    generators of the last [init_generators] call: it is either a non-empty
    array of increasing positions below the number of generators declared
    there, or the integer position of the last generator declared there. *)
Theorem X3_slack_identifier_is_a_declared_generator (pp_net : PPNet) :
  accepted pp_net = true ->
  exists earlier g declared,
    init pp_net = Returns (earlier ++ [add_gen_slackbus g])
    /\ last_declared earlier = Some declared
    /\ match g with
       | id_array ids =>
           ids <> [] /\ StronglySorted lt ids
           /\ Forall (fun i => i < declared) ids
       | id_int n => S n = declared
       end.
Proof.
  intros Hacc. destruct (init_accepted _ Hacc) as [cs [Hcs Hinit]].
  destruct (slack_calls_shape _ _ Hcs) as [pre [g [-> [_ Hg]]]].
  destruct (element_calls_end pp_net) as [before Hend].
  rewrite app_assoc in Hinit.
  destruct g as [ids|n].
  - destruct Hg as [Hne [Hsorted [Hbound Hpre]]].
    exists (element_calls pp_net ++ pre), (id_array ids),
      (List.length (gen pp_net)).
    split; [exact Hinit|]. split; [|auto].
    rewrite Hend, <- app_assoc, <- app_comm_cons.
    apply last_declared_app.
    + cbn. now rewrite length_map.
    + apply Forall_app. split; [|exact Hpre].
      apply Forall_map, Forall_forall. reflexivity.
  - destruct Hg as [-> [c [-> Hc]]].
    exists (element_calls pp_net ++ [c]), (id_int (List.length (gen pp_net))),
      (S (List.length (gen pp_net))).
    split; [exact Hinit|]. split; [|reflexivity].
    now apply last_declared_app.
Qed.

Lemma X3_witness :
  exists earlier g declared,
    init example_net = Returns (earlier ++ [add_gen_slackbus g])
    /\ last_declared earlier = Some declared
    /\ match g with
       | id_array ids =>
           ids <> [] /\ StronglySorted lt ids
           /\ Forall (fun i => i < declared) ids
       | id_int n => S n = declared
       end.
Proof.
  apply (X3_slack_identifier_is_a_declared_generator example_net). reflexivity.
Defined.

(** ** The activation flags *)

Lemma has_label_map {Row : Type} (index : Row -> Z) (f : Row -> Row)
    (rows : list Row) (l : Z) :
  (forall r, index (f r) = index r) ->
  has_label index (map f rows) l = has_label index rows l.
Proof.
  intros Hf. unfold has_label. induction rows as [|r rows IH]; simpl;
    [reflexivity | now rewrite Hf, IH].
Qed.

Lemma rows_at_map {Row : Type} (index : Row -> Z) (f : Row -> Row)
    (rows : list Row) (l : Z) :
  (forall r, index (f r) = index r) ->
  pd.rows_at index (map f rows) l = map f (pd.rows_at index rows l).
Proof.
  intros Hf. unfold pd.rows_at. induction rows as [|r rows IH]; simpl;
    [reflexivity|].
  rewrite Hf. destruct (Z.eqb (index r) l); simpl; now rewrite IH.
Qed.

Lemma forallb_eq {A : Type} (p q : A -> bool) (l : list A) :
  (forall a, p a = q a) -> forallb p l = forallb q l.
Proof.
  intros H. induction l as [|a l IH]; simpl; [reflexivity | now rewrite H, IH].
Qed.

Lemma filter_keeps_all {A : Type} (p : A -> bool) (l : list A) :
  Forall (fun a => p a = true) l -> filter p l = l.
Proof.
  induction 1 as [|a l Ha _ IH]; simpl; [reflexivity | now rewrite Ha, IH].
Qed.

Lemma filter_drops_all {A : Type} (p : A -> bool) (l : list A) :
  Forall (fun a => p a = false) l -> filter p l = [].
Proof.
  induction 1 as [|a l Ha _ IH]; simpl; [reflexivity | now rewrite Ha, IH].
Qed.

Lemma filter_flat_map {A B : Type} (p : B -> bool) (f : A -> list B)
    (l : list A) :
  filter p (flat_map f l) = flat_map (fun a => filter p (f a)) l.
Proof.
  induction l as [|a l IH]; simpl; [reflexivity | now rewrite filter_app, IH].
Qed.

Lemma out_of_service_all_true {A : Type} (rows : list A) :
  out_of_service (map (fun _ => true) rows) = [].
Proof.
  unfold out_of_service, np.where_. apply where_from_all_false.
  unfold np.invert. rewrite map_map. apply Forall_map, Forall_forall.
  reflexivity.
Qed.

Lemma in_service_flags_all (t : Table) (pp_net : PPNet) :
  out_of_service (in_service_flags t (all_in_service pp_net)) = [].
Proof.
  destruct t; cbn [in_service_flags all_in_service line shunt trafo load gen];
    rewrite map_map; apply out_of_service_all_true.
Qed.

Lemma table_calls_all (pp_net : PPNet) (t : Table) :
  table_calls (all_in_service pp_net) t
  = filter (fun c => negb (is_deactivation c)) (table_calls pp_net t).
Proof.
  unfold table_calls.
  rewrite in_service_flags_all, initialisation_ignores_in_service.
  cbn [map filter].
  replace (is_deactivation (initialisation t pp_net)) with false
    by (destruct t; reflexivity).
  cbn [negb]. f_equal. symmetry. apply filter_drops_all.
  apply Forall_map, Forall_forall. intros i _. destruct t; reflexivity.
Qed.

Lemma bus_labels_found_all (pp_net : PPNet) :
  bus_labels_found (all_in_service pp_net) = bus_labels_found pp_net.
Proof.
  unfold bus_labels_found. cbn [all_in_service bus line trafo].
  now rewrite !map_map.
Qed.

Lemma slack_calls_all (pp_net : PPNet) :
  slack_calls (all_in_service pp_net) = slack_calls pp_net.
Proof.
  unfold slack_calls, synthetic_generators_call.
  cbn [all_in_service gen load ext_grid]. rewrite !map_map, !length_map.
  cbn [slack gen_bus gen_p_mw gen_vm_pu min_q_mvar max_q_mvar load_p_mw].
  destruct (np.any (map slack (gen pp_net))); [|reflexivity].
  rewrite (forallb_eq _ (has_label gen_index (gen pp_net)))
    by (intros l; now apply has_label_map).
  destruct (forallb _ _); [|reflexivity].
  do 3 f_equal.
  induction (map Z.of_nat (np.where_ (map slack (gen pp_net)))) as [|l ls IH];
    [reflexivity|].
  cbn [flat_map]. rewrite !map_app, IH. f_equal.
  rewrite rows_at_map by reflexivity. now rewrite map_map.
Qed.

Lemma element_calls_all (pp_net : PPNet) :
  element_calls (all_in_service pp_net)
  = filter (fun c => negb (is_deactivation c)) (element_calls pp_net).
Proof.
  unfold element_calls. cbn [filter is_deactivation bus_call negb].
  rewrite filter_flat_map. f_equal.
  - unfold bus_call. cbn [all_in_service bus line trafo].
    now rewrite !length_map.
  - apply flat_map_ext. intros t. apply table_calls_all.
Qed.

(** X4.  The [in_service] flags only decide which [deactivate_*] calls are
    made: for the same network with every element in service, [init] raises
    the same exception, or returns the same model without its deactivation
    calls. *)
Theorem X4_in_service_only_adds_deactivations (pp_net : PPNet) :
  init (all_in_service pp_net)
  = match init pp_net with
    | Returns model =>
        Returns (filter (fun c => negb (is_deactivation c)) model)
    | Raises e => Raises e
    end.
Proof.
  rewrite !init_refines. unfold init_spec.
  rewrite bus_labels_found_all, slack_calls_all, element_calls_all.
  destruct (bus_labels_found pp_net); [|reflexivity].
  destruct (slack_calls pp_net) as [cs|e] eqn:Hcs; [|reflexivity].
  rewrite filter_app. do 2 f_equal. symmetry. apply filter_keeps_all.
  apply Forall_forall. intros c Hc.
  destruct (slack_calls_In _ _ _ Hcs Hc)
    as [[g [v ->]]|[[g ->]|[e [rest [_ ->]]]]]; reflexivity.
Qed.

(** ** The shape of the calls *)

Lemma slack_calls_well_shaped (pp_net : PPNet) (cs : list Call) :
  slack_calls pp_net = Returns cs ->
  Forall (fun c => well_shaped c = true) cs.
Proof.
  intros Hcs. apply Forall_forall. intros c Hc.
  destruct (slack_calls_In _ _ _ Hcs Hc)
    as [[g [v ->]]|[[g ->]|[e [rest [_ ->]]]]]; try reflexivity.
  unfold synthetic_generators_call. cbn [well_shaped].
  now rewrite !length_app, !length_map, !Nat.eqb_refl.
Qed.

Lemma element_calls_well_shaped (pp_net : PPNet) :
  Forall (fun c => well_shaped c = true) (element_calls pp_net).
Proof.
  apply Forall_forall. intros c Hc.
  apply element_calls_In in Hc as [->|[[t ->]|[t [i ->]]]].
  - reflexivity.
  - destruct t; cbn; now rewrite !length_map, !Nat.eqb_refl.
  - destruct t; reflexivity.
Qed.

(** X5.  Every call of a model built by [init] is consistent with the
    table sizes: the columns of each [init_*] call, the second
    [init_generators] included, have one common length, and every position
    handed to a [deactivate_*] call is a position of its table. *)
Theorem X5_calls_match_table_sizes (pp_net : PPNet) :
  accepted pp_net = true ->
  exists model,
    init pp_net = Returns model
    /\ Forall (fun c => well_shaped c = true) model
    /\ forall t i,
         In (deactivation t i) model ->
         i < elements_of (initialisation t pp_net).
Proof.
  intros Hacc. destruct (init_accepted _ Hacc) as [cs [Hcs Hinit]].
  exists (element_calls pp_net ++ cs). split; [exact Hinit|]. split.
  - apply Forall_app. split;
      [apply element_calls_well_shaped
      | exact (slack_calls_well_shaped pp_net cs Hcs)].
  - intros t i Hin. rewrite initialisation_elements.
    apply (model_around_table pp_net cs t Hcs) in Hin.
    apply nth_error_Some. congruence.
Qed.

Lemma X5_witness :
  exists model,
    init example_net = Returns model
    /\ Forall (fun c => well_shaped c = true) model
    /\ forall t i,
         In (deactivation t i) model ->
         i < elements_of (initialisation t example_net).
Proof.
  apply (X5_calls_match_table_sizes example_net). reflexivity.
Defined.

(** ** What [init] reads of [ext_grid] *)

(** X6.  [init] reads the [ext_grid] table only when no generator is
    flagged as slack, and then only its first row: replacing the table by
    one with the same first row, or by any table when a generator is
    flagged, changes neither the model nor the exception. *)
Theorem X6_only_first_ext_grid_row_is_read (pp_net : PPNet)
    (rows : list ExtGridRow) :
  np.any (map slack (gen pp_net)) = true
  \/ hd_error rows = hd_error (ext_grid pp_net) ->
  init (with_ext_grid rows pp_net) = init pp_net.
Proof.
  intros H. rewrite !init_refines. unfold init_spec.
  change (bus_labels_found (with_ext_grid rows pp_net))
    with (bus_labels_found pp_net).
  change (element_calls (with_ext_grid rows pp_net))
    with (element_calls pp_net).
  replace (slack_calls (with_ext_grid rows pp_net)) with (slack_calls pp_net);
    [reflexivity|].
  unfold slack_calls. cbn [with_ext_grid gen ext_grid].
  destruct (np.any (map slack (gen pp_net))); [reflexivity|].
  destruct H as [H|H]; [discriminate|].
  destruct rows as [|e rows], (ext_grid pp_net) as [|e' rest];
    try discriminate; [reflexivity|].
  injection H as ->. reflexivity.
Qed.

Lemma X6_witness :
  init (with_ext_grid
          [ {| ext_grid_bus := 0; ext_grid_vm_pu := 1.25%float |};
            {| ext_grid_bus := 2; ext_grid_vm_pu := 1%float |} ] example_net)
  = init example_net
  /\ init (with_ext_grid
             [ {| ext_grid_bus := 1; ext_grid_vm_pu := 1%float |} ]
             two_slack_net)
     = init two_slack_net.
Proof.
  split.
  - apply (X6_only_first_ext_grid_row_is_read example_net). right. reflexivity.
  - apply (X6_only_first_ext_grid_row_is_read two_slack_net). left. reflexivity.
Defined.

(** ** Which exception *)

(** X7.  [init] raises [IndexError] exactly when every bus lookup succeeds,
    no generator is flagged as slack and the [ext_grid] table is empty; it
    raises [KeyError] exactly when a bus label of a line end or of a
    transformer's low-voltage side is missing, or the position of a flagged
    generator is not a label of the generator table. *)
Theorem X7_which_exception (pp_net : PPNet) :
  (init pp_net = Raises IndexError
   <-> bus_labels_found pp_net = true
       /\ np.any (map slack (gen pp_net)) = false
       /\ ext_grid pp_net = [])
  /\ (init pp_net = Raises KeyError
      <-> bus_labels_found pp_net = false
          \/ (np.any (map slack (gen pp_net)) = true
              /\ forallb (has_label gen_index (gen pp_net))
                   (map Z.of_nat (np.where_ (map slack (gen pp_net))))
                 = false)).
Proof.
  rewrite init_refines. unfold init_spec, slack_calls.
  destruct (bus_labels_found pp_net).
  - destruct (np.any (map slack (gen pp_net))).
    + destruct (forallb _ _); split; split;
        try discriminate; try tauto; intuition discriminate.
    + destruct (ext_grid pp_net) as [|e rest].
      * split; split; try discriminate; try tauto; intuition discriminate.
      * destruct (np.any _); split; split;
          try discriminate; intuition discriminate.
  - split; split; try discriminate; try tauto; intuition discriminate.
Qed.

(** ** The voltages looked up for the converter *)

Lemma rows_at_unique {Row : Type} (index : Row -> Z) (rows : list Row) (l : Z) :
  NoDup (map index rows) ->
  has_label index rows l = true ->
  exists b,
    find (fun r => Z.eqb (index r) l) rows = Some b
    /\ pd.rows_at index rows l = [b].
Proof.
  unfold has_label, pd.rows_at.
  induction rows as [|r rows IH]; simpl; [discriminate|].
  intros Hnodup Hlabel. inversion Hnodup as [|k ks Hnotin Hrest]; subst.
  destruct (Z.eqb (index r) l) eqn:E.
  - exists r. split; [reflexivity|]. f_equal.
    apply Z.eqb_eq in E. subst l.
    apply (rows_at_nil index rows (index r)).
    unfold has_label. destruct (existsb _ rows) eqn:Hex; [|reflexivity].
    apply existsb_exists in Hex as [r' [Hin Heq]]. apply Z.eqb_eq in Heq.
    exfalso. apply Hnotin. rewrite <- Heq. now apply in_map.
  - simpl in Hlabel. now apply IH.
Qed.

Lemma lookup_aligned {Row : Type} (index : Row -> Z) (value : Row -> float)
    (rows : list Row) (labels : list Z) :
  NoDup (map index rows) ->
  forallb (has_label index rows) labels = true ->
  map Some (map value (flat_map (pd.rows_at index rows) labels))
  = map (fun l => option_map value
                    (find (fun r => Z.eqb (index r) l) rows)) labels.
Proof.
  intros Hnodup. induction labels as [|l labels IH]; simpl; [reflexivity|].
  intros H. apply andb_prop in H as [Hl Hrest].
  destruct (rows_at_unique index rows l Hnodup Hl) as [b [Hfind Hrows]].
  rewrite Hrows, Hfind. simpl. now rewrite IH.
Qed.

(** The only [init_powerlines] call of a model is the one of
    [powerlines_call]. *)
Lemma model_init_powerlines (pp_net : PPNet) (cs : list Call) (c : Call) :
  slack_calls pp_net = Returns cs ->
  In c (element_calls pp_net ++ cs) ->
  (exists r x h f t, c = init_powerlines r x h f t) ->
  c = powerlines_call pp_net.
Proof.
  intros Hcs Hin [r [x [h [f [t ->]]]]].
  apply in_app_or in Hin as [H|H].
  - apply element_calls_In in H as [H|[[tb H]|[tb [i H]]]].
    + discriminate.
    + destruct tb; try discriminate. exact H.
    + destruct tb; discriminate.
  - destruct (slack_calls_In _ _ _ Hcs H)
      as [[g [v H']]|[[g H']|[e [rest [_ H']]]]]; discriminate.
Qed.

(** X8.  When the labels of the bus table are pairwise distinct, the
    nominal voltages [init] looks up for the converter are aligned with the
    elements: entry [i] of the from-side and to-side columns is the
    [vn_kv] of the bus that line [i] names, and entry [i] of the
    low-voltage column is that of the bus transformer [i] names, one entry
    per element. *)
Theorem X8_looked_up_voltages_are_aligned (pp_net : PPNet) :
  NoDup (map bus_index (bus pp_net)) ->
  accepted pp_net = true ->
  exists model,
    init pp_net = Returns model
    /\ (forall lp x h f t,
           In (init_powerlines (line_r_of lp) x h f t) model ->
           map Some (lp_vn_from lp)
           = map (fun l => vn_kv_of pp_net (from_bus l)) (line pp_net)
           /\ map Some (lp_vn_to lp)
              = map (fun l => vn_kv_of pp_net (to_bus l)) (line pp_net))
    /\ (forall tp x b ts tpos side hv lv,
           In (init_trafo (trafo_r_of tp) x b ts tpos side hv lv) model ->
           map Some (tp_vn_lv_bus tp)
           = map (fun t => vn_kv_of pp_net (lv_bus t)) (trafo pp_net))
    /\ (exists lp x h f t,
           In (init_powerlines (line_r_of lp) x h f t) model)
    /\ (exists tp x b ts tpos side hv lv,
           In (init_trafo (trafo_r_of tp) x b ts tpos side hv lv) model).
Proof.
  intros Hnodup Hacc.
  destruct (init_accepted _ Hacc) as [cs [Hcs Hinit]].
  assert (Hbus : bus_labels_found pp_net = true).
  { unfold accepted in Hacc. now apply andb_prop in Hacc as [Hbus _]. }
  unfold bus_labels_found in Hbus.
  apply andb_prop in Hbus as [Hbus Hlv]. apply andb_prop in Hbus as [Hfrom Hto].
  exists (element_calls pp_net ++ cs). split; [exact Hinit|].
  split; [|split; [|split]].
  - intros lp x h f t Hin.
    assert (H : init_powerlines (line_r_of lp) x h f t = powerlines_call pp_net).
    { apply (model_init_powerlines pp_net cs); eauto 10. }
    unfold powerlines_call in H. injection H as -> _ _ _ _.
    unfold line_param_call, vn_kv_at, vn_kv_of. cbn [lp_vn_from lp_vn_to].
    split; rewrite lookup_aligned by assumption; now rewrite map_map.
  - intros tp x b ts tpos side hv lv Hin.
    assert (H : init_trafo (trafo_r_of tp) x b ts tpos side hv lv
                = trafo_call pp_net).
    { apply (model_init_trafo pp_net cs); eauto 10. }
    unfold trafo_call in H. injection H as -> _ _ _ _ _ _ _.
    unfold trafo_param_call, vn_kv_at, vn_kv_of. cbn [tp_vn_lv_bus].
    rewrite lookup_aligned by assumption. now rewrite map_map.
  - unfold powerlines_call. do 5 eexists.
    apply (initialisation_In pp_net cs powerlines).
  - unfold trafo_call. do 8 eexists. apply (trafo_call_In pp_net cs).
Qed.

Lemma X8_witness :
  exists model,
    init example_net = Returns model
    /\ (forall lp x h f t,
           In (init_powerlines (line_r_of lp) x h f t) model ->
           map Some (lp_vn_from lp) = [Some 110%float; Some 110%float]
           /\ map Some (lp_vn_to lp) = [Some 110%float; Some 110%float])
    /\ (forall tp x b ts tpos side hv lv,
           In (init_trafo (trafo_r_of tp) x b ts tpos side hv lv) model ->
           map Some (tp_vn_lv_bus tp) = [Some 20%float; Some 20%float])
    /\ (exists lp x h f t,
           In (init_powerlines (line_r_of lp) x h f t) model)
    /\ (exists tp x b ts tpos side hv lv,
           In (init_trafo (trafo_r_of tp) x b ts tpos side hv lv) model).
Proof.
  apply (X8_looked_up_voltages_are_aligned example_net).
  - repeat constructor; cbn; intuition discriminate.
  - reflexivity.
Defined.

(** ** One initialisation per table

    Every table is handled once, between the tables listed before and after
    it. *)
Lemma all_tables_around (t : Table) :
  exists l1 l2, all_tables = l1 ++ t :: l2 /\ ~ In t l1 /\ ~ In t l2.
Proof.
  unfold all_tables. destruct t.
  - exists [], [shunts; trafos; loads; generators].
    split; [reflexivity | cbn; intuition discriminate].
  - exists [powerlines], [trafos; loads; generators].
    split; [reflexivity | cbn; intuition discriminate].
  - exists [powerlines; shunts], [loads; generators].
    split; [reflexivity | cbn; intuition discriminate].
  - exists [powerlines; shunts; trafos], [generators].
    split; [reflexivity | cbn; intuition discriminate].
  - exists [powerlines; shunts; trafos; loads], [].
    split; [reflexivity | cbn; intuition discriminate].
Qed.

Lemma initialises_deactivation (t t' : Table) (i : nat) :
  initialises t (deactivation t' i) = false.
Proof. destruct t, t'; reflexivity. Qed.

Lemma initialises_initialisation (t t' : Table) (pp_net : PPNet) :
  t <> t' -> initialises t (initialisation t' pp_net) = false.
Proof. destruct t, t'; intros H; try reflexivity; congruence. Qed.

Lemma table_calls_other (pp_net : PPNet) (t : Table) (l : list Table) :
  ~ In t l ->
  Forall (fun c => initialises t c = false) (flat_map (table_calls pp_net) l).
Proof.
  intros Hnot. apply Forall_forall. intros c Hc.
  apply in_flat_map in Hc as [t' [Ht' Hc]].
  apply table_calls_In in Hc as [->|[i [-> _]]].
  - apply initialises_initialisation. intros ->. contradiction.
  - apply initialises_deactivation.
Qed.

Lemma slack_calls_initialise_nothing (pp_net : PPNet) (cs : list Call)
    (t : Table) :
  slack_calls pp_net = Returns cs ->
  t <> generators \/ fabricates_slack pp_net = false ->
  Forall (fun c => initialises t c = false) cs.
Proof.
  unfold slack_calls, fabricates_slack.
  destruct (np.any (map slack (gen pp_net))).
  - destruct (forallb _ _); [|discriminate]. intros [= <-] _.
    repeat constructor; destruct t; reflexivity.
  - destruct (ext_grid pp_net) as [|e rest]; [discriminate|].
    destruct (np.any _); intros [= <-] H.
    + repeat constructor; destruct t; reflexivity.
    + destruct H as [H|H]; [|discriminate].
      repeat constructor; destruct t; try reflexivity; congruence.
Qed.

(** X14.  In a model built by [init], the powerlines, the shunts, the
    transformers and the loads are each initialised by exactly one call,
    made before every deactivation of the table, and so are the generators
    unless [init] fabricates the slack generator.  When it does, the model
    ends with the first [init_generators], the [deactivate_gen] calls, a
    second [init_generators] with one generator more, and
    [add_gen_slackbus]: no generator is deactivated after the second
    initialisation. *)
Theorem X14_tables_initialised_once_unless_slack_is_fabricated
    (pp_net : PPNet) :
  accepted pp_net = true ->
  exists model,
    init pp_net = Returns model
    /\ (forall t : Table,
          t <> generators \/ fabricates_slack pp_net = false ->
          initialised_once_then_deactivated model t
            (initialisation t pp_net) (in_service_flags t pp_net))
    /\ (fabricates_slack pp_net = true ->
        exists before p v min_q max_q b,
          model
          = before
            ++ initialisation generators pp_net
               :: map deactivate_gen
                    (out_of_service (in_service_flags generators pp_net))
            ++ [init_generators p v min_q max_q b;
                add_gen_slackbus (id_int (List.length (gen pp_net)))]
          /\ List.length b = S (List.length (gen pp_net))).
Proof.
  intros Hacc. destruct (init_accepted _ Hacc) as [cs [Hcs Hinit]].
  exists (element_calls pp_net ++ cs). split; [exact Hinit|]. split.
  - intros t Ht.
    destruct (all_tables_around t) as [l1 [l2 [Hsplit [Hl1 Hl2]]]].
    exists (bus_call pp_net :: flat_map (table_calls pp_net) l1).
    exists (map (deactivation t) (out_of_service (in_service_flags t pp_net))
            ++ flat_map (table_calls pp_net) l2 ++ cs).
    split; [|split; [|split]].
    + unfold element_calls. rewrite Hsplit, flat_map_app. cbn [flat_map].
      unfold table_calls at 2.
      now rewrite <- !app_comm_cons, <- !app_assoc, <- !app_comm_cons, <- !app_assoc.
    + rewrite <- app_comm_cons. constructor; [destruct t; reflexivity|].
      repeat (apply Forall_app; split).
      * now apply table_calls_other.
      * apply Forall_map, Forall_forall. intros i _.
        apply initialises_deactivation.
      * now apply table_calls_other.
      * exact (slack_calls_initialise_nothing pp_net cs t Hcs Ht).
    + intros i [H|H]; [destruct t; discriminate|].
      apply in_flat_map in H as [t' [Ht' H]].
      apply table_calls_In in H as [H|[j [H _]]].
      * now apply deactivation_not_initialisation in H.
      * apply deactivation_inj in H as [-> _]. contradiction.
    + intros i. rewrite !in_app_iff, in_map_iff. split.
      * intros [[j [H Hj]]|[H|H]].
        -- apply deactivation_inj in H as [_ <-].
           now apply out_of_service_In.
        -- apply in_flat_map in H as [t' [_ H]].
           apply table_calls_In in H as [H|[j [H Hj]]].
           ++ now apply deactivation_not_initialisation in H.
           ++ apply deactivation_inj in H as [-> ->]. exact Hj.
        -- now apply slack_calls_no_deactivation with (t := t) (i := i) in Hcs.
      * intros H. left. exists i. split; [reflexivity|].
        now apply out_of_service_In.
  - intros Hfab. unfold fabricates_slack in Hfab.
    apply andb_prop in Hfab as [Hflag Hbus].
    unfold slack_calls in Hcs.
    destruct (np.any (map slack (gen pp_net))); [discriminate|].
    destruct (ext_grid pp_net) as [|e rest]; [discriminate|].
    destruct (np.any _); [discriminate|]. injection Hcs as <-.
    destruct (element_calls_end pp_net) as [before Hend].
    exists before. unfold synthetic_generators_call. do 5 eexists. split.
    + rewrite Hend, <- app_assoc, <- app_comm_cons. reflexivity.
    + now rewrite length_app, length_map, Nat.add_1_r.
Qed.

Lemma X14_witness :
  exists model,
    init example_net = Returns model
    /\ (forall t : Table,
          t <> generators \/ fabricates_slack example_net = false ->
          initialised_once_then_deactivated model t
            (initialisation t example_net) (in_service_flags t example_net))
    /\ (fabricates_slack example_net = true ->
        exists before p v min_q max_q b,
          model
          = before
            ++ initialisation generators example_net
               :: map deactivate_gen
                    (out_of_service (in_service_flags generators example_net))
            ++ [init_generators p v min_q max_q b;
                add_gen_slackbus (id_int (List.length (gen example_net)))]
          /\ List.length b = S (List.length (gen example_net))).
Proof.
  exact (X14_tables_initialised_once_unless_slack_is_fabricated example_net
           eq_refl).
Defined.

End InitCoverage.

(* ================================================================= *)
(** * Further properties of [KLU4Pandapower] *)

Section RunppCoverage.
Import Pyklu.
Context `{T : PyTypes} {P : Pandapower} {K : KLUSolverClass}.

Lemma bind_not_None_None {St A B : Type} (k : A -> M St B) (s : St) :
  bind (not_None None) k s = (Raises TypeError, s).
Proof. reflexivity. Qed.

Ltac cov_simpl :=
  cbv beta iota zeta;
  cbn [solver ppci V Ybus pv pq Yf Yt bus gen branch ref ref_gens baseMVA
       set_ppci set_V set_Ybus set_pv set_pq set_Yf set_Yt set_bus set_gen
       set_branch set_ref set_ref_gens set_baseMVA].

(** One statement of the driver, whatever the attributes of [self] hold. *)
Ltac cov_step :=
  first [ rewrite bind_bind
        | rewrite bind_attr
        | rewrite bind_assign
        | rewrite bind_on_net
        | rewrite bind_not_None
        | rewrite bind_not_None_None
        | rewrite bind_raise
        | rewrite bind_reset
        | rewrite bind_solve
        | rewrite bind_read
        | rewrite bind_ppci_to_net
        | rewrite bind_ret
        | match goal with
          | |- context [_get_Y_bus ?a ?b ?c ?d ?e ?f] =>
              destruct (_get_Y_bus a b c d e f) as [[[? ?] ?] ?]
          | |- context [ppci_to_pfsoln ?a ?b] =>
              destruct (ppci_to_pfsoln a b) as [[? ?] ?]
          | |- context [not_None ?x] => is_var x; destruct x
          | |- context [if converged_of ?st then _ else _] =>
              destruct (converged_of st)
          end ];
  cov_simpl.

Ltac cov_run :=
  unfold runpp_run_newton_raphson_pf, get_Va, get_Vm, get_J,
    solver_converged, get_nb_iter, get_timers;
  cov_simpl; repeat cov_step.

(** Whatever the arguments, the attributes of [self] and the outcome,
    [runpp] keeps [self.solver], constructs no solver object and calls no
    method of any solver object but its own. *)
Lemma runpp_frame (s : Store) (mi : Z) (need_reset : bool) (kw : Kwargs) :
  solver (self (snd (runpp mi need_reset kw s))) = solver (self s)
  /\ List.length (solvers (snd (runpp mi need_reset kw s)))
     = List.length (solvers s)
  /\ forall r', r' <> solver (self s) ->
       deref r' (solvers (snd (runpp mi need_reset kw s)))
       = deref r' (solvers s).
Proof.
  rewrite runpp_unfold.
  generalize (options_of_call mi need_reset kw (net s)).
  generalize (converted_ppci mi need_reset kw (net s)).
  generalize (net_after_conversion mi need_reset kw (net s)).
  destruct s as [h [r ppci0 V0 Ybus0 pv0 pq0 Yf0 Yt0 bus0 gen0 branch0 ref0 rg0 mva0] n].
  cbn [self solvers net solver]. intros n' p options.
  destruct need_reset.
  - unfold runpp_run_newton_raphson_pf.
    destruct (enforce_q_lims options);
      (destruct (init_va_degree options) as [str|];
       [destruct (String.eqb str "dc")|]);
      cov_run;
      unfold assign, modify; cbn [snd self solvers]; cov_simpl;
      (split; [reflexivity|]; split;
       [now rewrite ?update_length
       | intros r' Hne; now rewrite ?deref_update_other by congruence]).
  - cov_run;
      unfold assign, modify; cbn [snd self solvers]; cov_simpl;
      (split; [reflexivity|]; split;
       [now rewrite ?update_length
       | intros r' Hne; now rewrite ?deref_update_other by congruence]).
Qed.

(** X9.  Whatever its arguments, the attributes of [self] and its outcome
    (return or exception), a call of [runpp] keeps [self.solver], constructs
    no solver object, and leaves every solver object other than its own
    exactly as it was. *)
Theorem X9_runpp_touches_only_its_own_solver (s : Store) (mi : Z)
    (need_reset : bool) (kw : Kwargs) :
  solver (self (snd (runpp mi need_reset kw s))) = solver (self s)
  /\ List.length (solvers (snd (runpp mi need_reset kw s)))
     = List.length (solvers s)
  /\ forall r', r' <> solver (self s) ->
       deref r' (solvers (snd (runpp mi need_reset kw s)))
       = deref r' (solvers s).
Proof. apply runpp_frame. Qed.




(** [KLU4Pandapower()] appends one new solver object to the heap and keeps
    its position. *)
Lemma KLU4Pandapower_init_run (h : Heap) :
  exists obj,
    KLU4Pandapower_init h = (Returns obj, h ++ [new_object])
    /\ solver obj = List.length h.
Proof. eexists. split; reflexivity. Qed.

(** X13.  Two [KLU4Pandapower] objects never share a solver: the two
    constructors give different solver objects, and a call of [runpp] on
    the first object, whatever its arguments and outcome, leaves the solver
    of the second as constructed and every older solver object as it
    was. *)
Theorem X13_objects_have_separate_solvers (h : Heap) (n : Net) (mi : Z)
    (need_reset : bool) (kw : Kwargs) (obj1 obj2 : KLU4Pandapower)
    (h1 h2 : Heap) :
  KLU4Pandapower_init h = (Returns obj1, h1) ->
  KLU4Pandapower_init h1 = (Returns obj2, h2) ->
  solver obj1 <> solver obj2
  /\ deref (solver obj2)
       (solvers (snd (runpp mi need_reset kw
                        {| solvers := h2; self := obj1; net := n |})))
     = new_object
  /\ forall r, r < List.length h ->
       deref r (solvers (snd (runpp mi need_reset kw
                                {| solvers := h2; self := obj1; net := n |})))
       = deref r h.
Proof.
  intros H1 H2.
  destruct (KLU4Pandapower_init_run h) as [o1 [E1 Hs1]].
  rewrite E1 in H1. injection H1 as <- <-.
  destruct (KLU4Pandapower_init_run (h ++ [new_object])) as [o2 [E2 Hs2]].
  rewrite E2 in H2. injection H2 as <- <-.
  rewrite length_app, Nat.add_1_r in Hs2.
  destruct (runpp_frame {| solvers := (h ++ [new_object]) ++ [new_object];
                           self := o1; net := n |} mi need_reset kw)
    as [_ [_ Hframe]].
  cbn [self solvers] in Hframe.
  split; [lia|]. split.
  - rewrite Hframe by lia. rewrite Hs2.
    replace (S (List.length h)) with (List.length (h ++ [new_object]))
      by (rewrite length_app; cbn; lia).
    apply deref_fresh.
  - intros r Hlt. rewrite Hframe by lia.
    unfold deref. rewrite <- app_assoc. now rewrite app_nth1 by exact Hlt.
Qed.

End RunppCoverage.

Section RunppCoverageExamples.
Import Pyklu.
#[local] Existing Instance demo_types.
#[local] Existing Instance demo_pandapower.
#[local] Existing Instance demo_solver.




Lemma X13_witness :
  solver (demo_object 0) <> solver (demo_object 1)
  /\ deref 1
       (solvers (snd (runpp 10 true tt
                        {| solvers := [new_object; new_object];
                           self := demo_object 0;
                           net := demo_net 5 false |})))
     = new_object
  /\ forall r, r < 0 ->
       deref r
         (solvers (snd (runpp 10 true tt
                          {| solvers := [new_object; new_object];
                             self := demo_object 0;
                             net := demo_net 5 false |})))
       = deref r [].
Proof.
  exact (X13_objects_have_separate_solvers [] (demo_net 5 false) 10 true tt
           (demo_object 0) (demo_object 1) [new_object]
           [new_object; new_object] eq_refl eq_refl).
Defined.

End RunppCoverageExamples.
